(** * useDarkMode: the dark-mode reconciliation hook of xLog

    A shallow embedding of [src/hooks/useDarkMode.ts].  The hook keeps one
    piece of React state ([darkMode]) and one ref ([triggerOnce]); everything
    else it touches belongs to the host: the per-origin key-value store, the
    class lists of DOM elements, the [prefers-color-scheme] media query and
    the process-wide zustand cell.  The host is an explicit [World] threaded
    through a small reader/state monad, and every call the hook makes to the
    host or to the storage adapter is entered in a journal, so that what it
    read, wrote or attempted is visible in the resulting world. *)

From stdpp Require Import gmap strings list.

Local Open Scope string_scope.

(** ** JavaScript values held by the hook *)

Module JS.

(** [darkMode] is typed [boolean | undefined], but the public entry point
    feeds it whatever the store returns, so strings occur at run time. *)
Inductive value : Type :=
| Undefined
| Bool (b : bool)
| Str (s : string).

#[global] Instance value_eq_dec : EqDecision value.
Proof. solve_decision. Defined.

(** ToBoolean: [undefined] and the empty string are falsy. *)
Definition truthy_string (s : string) : bool :=
  match s with
  | EmptyString => false
  | String _ _ => true
  end.

Definition truthy (v : value) : bool :=
  match v with
  | Undefined => false
  | Bool b => b
  | Str s => truthy_string s
  end.

(** The unary [!] operator. *)
Definition not (v : value) : bool := negb (truthy v).

(** [String(b)] for a boolean [b]. *)
Definition String_of_bool (b : bool) : string :=
  if b then "true" else "false".

(** [typeof v === "undefined"]. *)
Definition is_undefined (v : value) : bool :=
  match v with
  | Undefined => true
  | _ => false
  end.

(** [b === v] for a boolean [b]: no coercion, so only the boolean [b]
    itself is equal to it. *)
Definition strict_eq_bool (b : bool) (v : value) : bool :=
  match v with
  | Bool b' => eqb b b'
  | _ => false
  end.

(** [v === s] for a string literal [s]. *)
Definition strict_eq_string (v : value) (s : string) : bool :=
  match v with
  | Str s' => bool_decide (s' = s)
  | _ => false
  end.

(** What a lookup in the store hands to JavaScript. *)
Definition of_lookup (o : option string) : value :=
  match o with
  | None => Undefined
  | Some s => Str s
  end.

End JS.

(** ** The host environment *)

(** The target of the DOM reflector: a real element, identified by a
    number, or the stand-in object [mockElement]. *)
Inductive Element : Type :=
| DomElement (id : nat)
| MockElement.

(** [document.documentElement]. *)
Definition documentElement : Element := DomElement 0.

(** The calls made to the storage adapter and to the host, newest first in
    the journal.  A call is entered when it is made, whether or not it has
    an effect: a storage call on a server and a class-list call that throws
    are entered too. *)
Inductive access : Type :=
| ReadStore (key : string)
| WriteStore (key val : string)
| DeleteStore (key : string)
| QueryMedia
| ClassAdd (id : nat) (name : string)
| ClassRemove (id : nat) (name : string).

#[global] Instance access_eq_dec : EqDecision access.
Proof. solve_decision. Defined.

(** The toggle functions of the source, named rather than stored as
    closures: [() => {}] / [() => void 0], and the closure of
    [useDarkModeInternal] over its [storageKey]. *)
Inductive ToggleFn : Type :=
| NoopToggle
| HookToggle (storageKey : string).

(** The zustand cell [useMediaStore]. *)
Record IMediaStore : Type := mkMediaStore {
  isDark : JS.value;
  cellToggle : ToggleFn
}.

Definition initialMediaStore : IMediaStore :=
  {| isDark := JS.Bool false; cellToggle := NoopToggle |}.

Record World : Type := mkWorld {
  store : gmap string string;       (* the persistent per-origin store *)
  classes : gmap nat (list string); (* class list of every DOM element *)
  prefersDark : bool;               (* (prefers-color-scheme: dark) *)
  mediaStore : IMediaStore;
  journal : list access
}.

(** The execution context is fixed for the life of the process. *)
Record Env : Type := mkEnv {
  server : bool
}.

Definition browser : Env := {| server := false |}.
Definition ssr : Env := {| server := true |}.

(** *** Computations over the host *)

Definition M (A : Type) : Type := Env -> World -> A * World.

Definition ret {A} (a : A) : M A := fun _ w => (a, w).

Definition bind {A B} (c : M A) (k : A -> M B) : M B :=
  fun e w => let '(a, w') := c e w in k a e w'.

Notation "x <- c ;; k" := (bind c (fun x => k))
  (at level 100, c at next level, right associativity).
Notation "c ;;; k" := (bind c (fun _ => k))
  (at level 100, right associativity).

Definition record (a : access) (w : World) : World :=
  {| store := store w; classes := classes w; prefersDark := prefersDark w;
     mediaStore := mediaStore w; journal := a :: journal w |}.

Definition with_store (s : gmap string string) (w : World) : World :=
  {| store := s; classes := classes w; prefersDark := prefersDark w;
     mediaStore := mediaStore w; journal := journal w |}.

Definition with_classes (c : gmap nat (list string)) (w : World) : World :=
  {| store := store w; classes := c; prefersDark := prefersDark w;
     mediaStore := mediaStore w; journal := journal w |}.

Definition with_prefersDark (b : bool) (w : World) : World :=
  {| store := store w; classes := classes w; prefersDark := b;
     mediaStore := mediaStore w; journal := journal w |}.

Definition with_mediaStore (m : IMediaStore) (w : World) : World :=
  {| store := store w; classes := classes w; prefersDark := prefersDark w;
     mediaStore := m; journal := journal w |}.

(** *** The collaborators imported by the hook *)

(** Modelled from the spec: [isServerSide] of [~/lib/utils], the Environment
    Probe; it is pure and reports whether no browser is available. *)
Definition isServerSide : M bool := fun e w => (server e, w).

(** Modelled from the spec: [getStorage] of [~/lib/storage], the read of the
    Preference Store Adapter.  It returns the string kept under [key], or
    [undefined] when there is none; without a browser there is no store and
    the call, which is still made, degrades to [undefined].  The adapter of
    the spec has no cache, so the [noCache] flag of the source does not
    change the answer. *)
Definition getStorage (key : string) (noCache : bool) : M JS.value :=
  fun e w =>
    (if server e then JS.Undefined else JS.of_lookup (store w !! key),
     record (ReadStore key) w).

(** Modelled from the spec: [setStorage] of [~/lib/storage]; without a
    browser the call changes nothing. *)
Definition setStorage (key val : string) : M unit :=
  fun e w =>
    (tt, record (WriteStore key val)
           (if server e then w else with_store (<[key := val]> (store w)) w)).

(** Modelled from the spec: [delStorage] of [~/lib/storage]; without a
    browser the call changes nothing. *)
Definition delStorage (key : string) : M unit :=
  fun e w =>
    (tt, record (DeleteStore key)
           (if server e then w else with_store (delete key (store w)) w)).

(** [window.matchMedia("(prefers-color-scheme: dark)").matches].  Every call
    site is either guarded by [isClient] or lives in an effect or an event
    handler, which only run in a browser. *)
Definition matchMedia : M bool :=
  fun _ w => (prefersDark w, record QueryMedia w).

(** How a call to the host ends: it returns, or it throws. *)
Inductive completion : Type :=
| Normal
| Throw.

(** Run [c2] after [c1] unless [c1] threw: a thrown error leaves the rest of
    the function body unexecuted. *)
Definition andThen (c1 c2 : M completion) : M completion :=
  r <- c1 ;;
  match r with
  | Normal => c2
  | Throw => ret Throw
  end.

Notation "c1 ;;! c2" := (andThen c1 c2)
  (at level 100, right associativity).

(** ASCII whitespace of the DOM standard: tab, line feed, form feed,
    carriage return and space. *)
Definition is_ascii_whitespace (a : Ascii.ascii) : bool :=
  let n := Ascii.nat_of_ascii a in
  Nat.eqb n 9 || Nat.eqb n 10 || Nat.eqb n 12 || Nat.eqb n 13 || Nat.eqb n 32.

Fixpoint has_whitespace (s : string) : bool :=
  match s with
  | EmptyString => false
  | String a s' => is_ascii_whitespace a || has_whitespace s'
  end.

(** A token that [DOMTokenList] accepts: [add] and [remove] throw a
    [SyntaxError] on the empty string and an [InvalidCharacterError] on a
    token with whitespace, and change nothing then. *)
Definition well_formed (name : string) : bool :=
  JS.truthy_string name && negb (has_whitespace name).

(** The class list of a DOM element is an ordered set of tokens: [remove]
    drops the token, [add] appends it unless it is already there. *)
Definition classList (w : World) (id : nat) : list string :=
  default [] (classes w !! id).

Definition token_remove (name : string) (l : list string) : list string :=
  filter (λ c, c ≠ name) l.

Definition token_add (name : string) (l : list string) : list string :=
  if decide (name ∈ l) then l else l ++ [name].

(** [$el.classList.remove(name)]; on [mockElement] it is [noop], which
    accepts anything. *)
Definition classList_remove (el : Element) (name : string) : M completion :=
  fun _ w =>
    match el with
    | MockElement => (Normal, w)
    | DomElement id =>
        if well_formed name then
          (Normal, record (ClassRemove id name)
                     (with_classes
                        (<[id := token_remove name (classList w id)]> (classes w)) w))
        else (Throw, record (ClassRemove id name) w)
    end.

(** [$el.classList.add(name)]; on [mockElement] it is [noop], which accepts
    anything. *)
Definition classList_add (el : Element) (name : string) : M completion :=
  fun _ w =>
    match el with
    | MockElement => (Normal, w)
    | DomElement id =>
        if well_formed name then
          (Normal, record (ClassAdd id name)
                     (with_classes
                        (<[id := token_add name (classList w id)]> (classes w)) w))
        else (Throw, record (ClassAdd id name) w)
    end.

(** [useMediaStore.setState]. *)
Definition setMediaStore (f : IMediaStore -> IMediaStore) : M unit :=
  fun _ w => (tt, with_mediaStore (f (mediaStore w)) w).

(** ** The hook *)

(** [DarkModeConfig]: every field is optional. *)
Record DarkModeConfig : Type := mkConfig {
  classNameDark : option string;
  classNameLight : option string;
  element : option Element;
  storageKey : option string
}.

Definition darkModeKey : string := "darkMode".

(** The destructuring at the head of [useDarkModeInternal], with its
    defaults; a default only replaces a field that is [undefined]. *)
Definition classNameDark_of (o : DarkModeConfig) : string :=
  default "dark" (classNameDark o).

Definition classNameLight_of (o : DarkModeConfig) : string :=
  default "light" (classNameLight o).

Definition storageKey_of (o : DarkModeConfig) : string :=
  default darkModeKey (storageKey o).

(** What React keeps for one mounted consumer: the [useState] cell and the
    [triggerOnce] ref. *)
Record Hook : Type := mkHook {
  darkMode : JS.value;
  triggerOnce : bool
}.

(** [useState(initialState)] and [useRef(false)] on the first render. *)
Definition mount (initialState : JS.value) : Hook :=
  {| darkMode := initialState; triggerOnce := false |}.

Definition setDarkMode (v : JS.value) (h : Hook) : Hook :=
  {| darkMode := v; triggerOnce := triggerOnce h |}.

Definition set_triggerOnce (h : Hook) : Hook :=
  {| darkMode := darkMode h; triggerOnce := true |}.

(** [detector], lines 44-61. *)
Definition detector (initialState : JS.value) (o : DarkModeConfig) (h : Hook) : M Hook :=
  s <- isServerSide ;;
  let isClient := negb s in
  presentedDarkMode <-
    (if JS.truthy_string (storageKey_of o)
     then if isClient then ret JS.Undefined else getStorage (storageKey_of o) false
     else ret JS.Undefined) ;;
  if negb (JS.is_undefined presentedDarkMode) then
    if JS.strict_eq_string presentedDarkMode "true" then
      ret (setDarkMode (JS.Bool true) h)
    else if JS.strict_eq_string presentedDarkMode "false" then
      ret (setDarkMode (JS.Bool false) h)
    else ret h
  else if JS.is_undefined initialState && isClient then
    m <- matchMedia ;;
    ret (setDarkMode (JS.Bool m) h)
  else ret h.

(** The listener for the [change] event of the media query, lines 73-82;
    [matches] is [e.matches]. *)
Definition handler (o : DarkModeConfig) (matches : bool) (h : Hook) : M Hook :=
  storageValue <- getStorage (storageKey_of o) false ;;
  let parseStorageValueAsBool := JS.strict_eq_string storageValue "true" in
  let h' := setDarkMode (JS.Bool matches) h in
  if eqb parseStorageValueAsBool matches then
    delStorage (storageKey_of o) ;;; ret h'
  else ret h'.

(** The listener for the [storage] event of the window, lines 84-97. *)
Definition storageHandler (o : DarkModeConfig) (h : Hook) : M Hook :=
  storageValue <- getStorage (storageKey_of o) true ;;
  if JS.is_undefined storageValue then
    m <- matchMedia ;;
    ret (setDarkMode (JS.Bool m) h)
  else if JS.strict_eq_string storageValue "true" then
    ret (setDarkMode (JS.Bool true) h)
  else if JS.strict_eq_string storageValue "false" then
    ret (setDarkMode (JS.Bool false) h)
  else ret h.

(** Modelled from the spec: [useGetState] of [./useGetState]; the getter it
    returns yields the last-known mode, that is the current [darkMode]. *)
Definition getDarkMode (h : Hook) : JS.value := darkMode h.

(** The listener for [beforeunload], lines 114-122. *)
Definition unloadHandler (h : Hook) : M Hook :=
  m <- matchMedia ;;
  if JS.strict_eq_bool m (getDarkMode h) then
    delStorage darkModeKey ;;; ret h
  else ret h.

(** The effect that reflects the mode onto the element, lines 130-143;
    [rendered] is the [darkMode] of the render that scheduled it.  The class
    names go to the class list as they are, so the effect throws where the
    class list does, and then skips what is left of its body. *)
Definition reflector (o : DarkModeConfig) (rendered : JS.value) : M completion :=
  s <- isServerSide ;;
  if s || JS.is_undefined rendered then ret Normal
  else
    let el := default documentElement (element o) in
    if JS.truthy rendered then
      classList_remove el (classNameLight_of o) ;;!
      classList_add el (classNameDark_of o)
    else
      classList_remove el (classNameDark_of o) ;;!
      classList_add el (classNameLight_of o).

(** The updater passed to [setDarkMode] by the returned [toggle],
    lines 154-162. *)
Definition toggle (storageKey : string) (h : Hook) : M Hook :=
  let d := darkMode h in
  s <- isServerSide ;;
  (if JS.truthy_string storageKey && negb s
   then setStorage storageKey (JS.String_of_bool (JS.not d))
   else ret tt) ;;;
  ret (setDarkMode (JS.Bool (JS.not d)) h).

(** Calling a toggle function. *)
Definition call (f : ToggleFn) (h : Hook) : M Hook :=
  match f with
  | NoopToggle => ret h
  | HookToggle k => toggle k h
  end.

Record Result : Type := mkResult {
  value : JS.value;
  toggleFn : ToggleFn
}.

(** The body of [useDarkModeInternal] without its effects: one render.
    A [setDarkMode] issued while rendering makes React run the body again at
    once with the new state; [triggerOnce] is then set, so the render that is
    kept returns the state left by [detector]. *)
Definition useDarkModeInternal (initialState : JS.value) (o : DarkModeConfig)
    (h : Hook) : M (Result * Hook) :=
  h1 <- (if triggerOnce h then ret h
         else h' <- detector initialState o h ;; ret (set_triggerOnce h')) ;;
  s <- isServerSide ;;
  if s then ret ({| value := JS.Bool false; toggleFn := NoopToggle |}, h1)
  else ret ({| value := darkMode h1; toggleFn := HookToggle (storageKey_of o) |}, h1).

(** The effects of one committed render of [useDarkModeInternal], in source
    order: the [detector] effect, then the reflector, which still sees the
    [darkMode] of that render.  The two effects in between only register
    listeners.  React runs no effect while rendering on a server.  An effect
    that throws does not keep the other effects of the commit from running;
    what React does about the error afterwards is not followed here. *)
Definition effects (initialState : JS.value) (o : DarkModeConfig) (h : Hook) : M Hook :=
  s <- isServerSide ;;
  if s then ret h
  else
    h' <- detector initialState o h ;;
    reflector o (darkMode h) ;;;
    ret h'.

(** Commit a render, and render again for as long as an effect changed
    [darkMode]; a re-render finds [triggerOnce] set and changes nothing
    itself. *)
Fixpoint commit (fuel : nat) (initialState : JS.value) (o : DarkModeConfig)
    (h : Hook) : M Hook :=
  match fuel with
  | O => ret h
  | S n =>
      h' <- effects initialState o h ;;
      if decide (darkMode h' = darkMode h) then ret h'
      else commit n initialState o h'
  end.

(** Activation of a consumer: the first render and what it returns, then
    the effects it scheduled. *)
Definition activate (fuel : nat) (initialState : JS.value) (o : DarkModeConfig)
    : M (Result * Hook) :=
  rh <- useDarkModeInternal initialState o (mount initialState) ;;
  h' <- commit fuel initialState o (snd rh) ;;
  ret (fst rh, h').

(** *** The public entry point *)

(** [mockElement]: its [classList.add] and [classList.remove] are [noop]. *)
Definition mockElement : Element := MockElement.

(** The options literal of [useDarkMode], lines 175-178;
    [globalThis.document] exists exactly in a browser. *)
Definition publicOptions : M DarkModeConfig :=
  s <- isServerSide ;;
  ret {| classNameDark := Some "dark";
         classNameLight := Some "light";
         storageKey := Some darkModeKey;
         element := Some (if s then mockElement else documentElement) |}.

(** A mounted [useDarkMode]: the state of the inner hook, [onceRef], and
    the [initialState] and [value] captured by the closures of its last
    render. *)
Record Consumer : Type := mkConsumer {
  inner : Hook;
  onceRef : bool;
  lastInitial : JS.value;
  lastValue : JS.value
}.

(** One render of [useDarkMode], lines 173-197; [c] is [None] on the first
    render.  The stored string is read again on every render and passed on
    unparsed. *)
Definition useDarkMode (c : option Consumer) : M (Result * Consumer) :=
  initialState <- getStorage darkModeKey false ;;
  o <- publicOptions ;;
  rh <- useDarkModeInternal initialState o
          (match c with
           | None => mount initialState
           | Some c => inner c
           end) ;;
  let r := fst rh in
  (if match c with None => false | Some c => onceRef c end then ret tt
   else setMediaStore (λ m, {| isDark := isDark m; cellToggle := toggleFn r |})) ;;;
  ret (r, {| inner := snd rh; onceRef := true;
             lastInitial := initialState; lastValue := value r |}).

(** The effects of one committed render of [useDarkMode]: those of the inner
    hook, then the publication of [value] in the cell. *)
Definition useDarkMode_effects (c : Consumer) : M Consumer :=
  s <- isServerSide ;;
  if s then ret c
  else
    o <- publicOptions ;;
    h' <- effects (lastInitial c) o (inner c) ;;
    setMediaStore (λ m, {| isDark := lastValue c; cellToggle := cellToggle m |}) ;;;
    ret {| inner := h'; onceRef := onceRef c;
           lastInitial := lastInitial c; lastValue := lastValue c |}.

Fixpoint useDarkMode_commit (fuel : nat) (c : Consumer) : M Consumer :=
  match fuel with
  | O => ret c
  | S n =>
      c' <- useDarkMode_effects c ;;
      if decide (darkMode (inner c') = darkMode (inner c)) then ret c'
      else
        rc <- useDarkMode (Some c') ;;
        useDarkMode_commit n (snd rc)
  end.

(** Mounting the public hook: what the first render reports, and the
    consumer once its effects have run. *)
Definition useDarkMode_mount (fuel : nat) : M (Result * Consumer) :=
  rc <- useDarkMode None ;;
  c' <- useDarkMode_commit fuel (snd rc) ;;
  ret (fst rc, c').

(** *** What can happen to a mounted consumer *)

Inductive Event : Type :=
| CallToggle (f : ToggleFn)                (* the application calls [toggle] *)
| MediaChange (matches : bool)             (* the OS preference changes *)
| StorageChange (s : gmap string string)   (* another tab left the store as [s] *)
| Unload                                   (* [beforeunload] *)
| Detect (initialState : JS.value)         (* the [darkMode] effect *)
| Render (initialState : JS.value)         (* a later render *)
| Reflect.                                 (* the reflector effect *)

Definition setPrefersDark (b : bool) : M unit :=
  fun _ w => (tt, with_prefersDark b w).

Definition setStore (s : gmap string string) : M unit :=
  fun _ w => (tt, with_store s w).

Definition step (o : DarkModeConfig) (ev : Event) (h : Hook) : M Hook :=
  match ev with
  | CallToggle f => call f h
  | MediaChange matches => setPrefersDark matches ;;; handler o matches h
  | StorageChange s => setStore s ;;; storageHandler o h
  | Unload => unloadHandler h
  | Detect initialState => detector initialState o h
  | Render initialState => rh <- useDarkModeInternal initialState o h ;; ret (snd rh)
  | Reflect => reflector o (darkMode h) ;;; ret h
  end.

Fixpoint run (o : DarkModeConfig) (evs : list Event) (h : Hook) : M Hook :=
  match evs with
  | [] => ret h
  | ev :: evs' => h' <- step o ev h ;; run o evs' h'
  end.

(** ** Worlds and options used at concrete inputs *)

Definition defaults : DarkModeConfig :=
  {| classNameDark := None; classNameLight := None;
     element := None; storageKey := None |}.

Definition fresh (s : gmap string string) (os : bool) : World :=
  {| store := s; classes := ∅; prefersDark := os;
     mediaStore := initialMediaStore; journal := [] |}.

(** Options that persist under a key of their own. *)
Definition themed : DarkModeConfig :=
  {| classNameDark := None; classNameLight := None;
     element := None; storageKey := Some "theme" |}.

(** A consumer that has rendered and holds mode [v]. *)
Definition holding (v : JS.value) : Hook :=
  {| darkMode := v; triggerOnce := true |}.

(** The mode has been determined: [darkMode] is not [undefined]. *)
Definition determined (h : Hook) : Prop :=
  JS.is_undefined (darkMode h) = false.


(** The class list [l] shows the mode [rendered] and nothing else: the dark
    class without the light class for a truthy mode, the light class without
    the dark class for a falsy one. *)
Definition exclusive (o : DarkModeConfig) (rendered : JS.value)
    (l : list string) : Prop :=
  if JS.truthy rendered
  then classNameDark_of o ∈ l ∧ classNameLight_of o ∉ l
  else classNameLight_of o ∈ l ∧ classNameDark_of o ∉ l.

(** *** The readers of the cell, and a consumer in use *)

(** [useIsDark], line 199: the selector [state => state.isDark]. *)
Definition useIsDark : M JS.value :=
  fun _ w => (isDark (mediaStore w), w).

(** [useDarkModeSwitch], lines 201-203: the selector [state => state.toggle]. *)
Definition useDarkModeSwitch : M ToggleFn :=
  fun _ w => (cellToggle (mediaStore w), w).

Definition with_inner (h : Hook) (c : Consumer) : Consumer :=
  {| inner := h; onceRef := onceRef c;
     lastInitial := lastInitial c; lastValue := lastValue c |}.

(** When React runs an updater passed to [setDarkMode]: at once, if the hook
    has no other update pending, or else inside the next render, when that
    render reaches [useState]. *)
Inductive timing : Type :=
| Eager
| Queued.

(** A render of [useDarkMode] in which [useState] first applies the queued
    updater [f].  The stored string has been read before that, at line 174,
    so the closures of this render see the initial value from before the
    updater ran. *)
Definition useDarkMode_applying (f : ToggleFn) (c : Consumer) : M (Result * Consumer) :=
  initialState <- getStorage darkModeKey false ;;
  o <- publicOptions ;;
  h' <- call f (inner c) ;;
  rh <- useDarkModeInternal initialState o h' ;;
  let r := fst rh in
  (if onceRef c then ret tt
   else setMediaStore (λ m, {| isDark := isDark m; cellToggle := toggleFn r |})) ;;;
  ret (r, {| inner := snd rh; onceRef := true;
             lastInitial := initialState; lastValue := value r |}).

(** The application calls the toggle function [f] on a mounted
    [useDarkMode].  React renders the consumer again, and commits that
    render unless the state came out the same. *)
Definition useDarkMode_toggle (t : timing) (fuel : nat) (f : ToggleFn) (c : Consumer)
    : M Consumer :=
  match t with
  | Eager =>
      h' <- call f (inner c) ;;
      if decide (darkMode h' = darkMode (inner c)) then ret c
      else
        rc <- useDarkMode (Some (with_inner h' c)) ;;
        useDarkMode_commit fuel (snd rc)
  | Queued =>
      rc <- useDarkMode_applying f c ;;
      if decide (darkMode (inner (snd rc)) = darkMode (inner c)) then ret c
      else useDarkMode_commit fuel (snd rc)
  end.

(** [beforeunload] reaches the listener of a mounted [useDarkMode]. *)
Definition useDarkMode_unload (c : Consumer) : M Consumer :=
  h' <- unloadHandler (inner c) ;;
  ret (with_inner h' c).

(** The application calls [toggle] on a mounted [useDarkModeInternal]; the
    changed state is rendered and committed. *)
Definition toggle_and_commit (fuel : nat) (initialState : JS.value)
    (o : DarkModeConfig) (h : Hook) : M Hook :=
  h' <- call (HookToggle (storageKey_of o)) h ;;
  if decide (darkMode h' = darkMode h) then ret h'
  else commit fuel initialState o h'.

(** The element the reflector works on: [element || document.documentElement]. *)
Definition target (o : DarkModeConfig) : Element :=
  default documentElement (element o).

(** Two class lists hold the same classes. *)
Definition same_classes (l1 l2 : list string) : Prop :=
  ∀ c, c ∈ l1 ↔ c ∈ l2.


#[global] Instance Element_eq_dec : EqDecision Element.
Proof. solve_decision. Defined.

(** The class the reflector adds for a mode, and the one it removes. *)
Definition added (o : DarkModeConfig) (rendered : JS.value) : string :=
  if JS.truthy rendered then classNameDark_of o else classNameLight_of o.

Definition removed (o : DarkModeConfig) (rendered : JS.value) : string :=
  if JS.truthy rendered then classNameLight_of o else classNameDark_of o.


(** The options [useDarkMode] passes in a browser. *)
Definition browserOptions : DarkModeConfig :=
  {| classNameDark := Some "dark"; classNameLight := Some "light";
     element := Some documentElement; storageKey := Some darkModeKey |}.

(** A page load: a new document and a new process, over the same store and
    under the same OS preference. *)
Definition reload (w : World) : World :=
  {| store := store w; classes := ∅; prefersDark := prefersDark w;
     mediaStore := initialMediaStore; journal := [] |}.


(** The host calls a hook configured with [o] is entitled to: reads and
    writes under its own key, writes of a boolean's string only, deletions
    under its key or under ["darkMode"], the media query, and its two class
    names on its target element. *)
Definition within_footprint (o : DarkModeConfig) (a : access) : Prop :=
  match a with
  | ReadStore k => k = storageKey_of o
  | WriteStore k v => k = storageKey_of o ∧ (v = "true" ∨ v = "false")
  | DeleteStore k => k = storageKey_of o ∨ k = darkModeKey
  | QueryMedia => True
  | ClassAdd id c | ClassRemove id c =>
      target o = DomElement id ∧ (c = classNameDark_of o ∨ c = classNameLight_of o)
  end.

(** The toggle an event calls, if any, is the one this hook returned. *)
Definition own_toggle (o : DarkModeConfig) (ev : Event) : Prop :=
  match ev with
  | CallToggle (HookToggle k) => k = storageKey_of o
  | _ => True
  end.


(** A [storage] event reaches the listener of a mounted [useDarkMode]; a
    changed state is rendered and committed. *)
Definition useDarkMode_storage (fuel : nat) (c : Consumer) : M Consumer :=
  o <- publicOptions ;;
  h' <- storageHandler o (inner c) ;;
  if decide (darkMode h' = darkMode (inner c)) then ret c
  else
    rc <- useDarkMode (Some (with_inner h' c)) ;;
    useDarkMode_commit fuel (snd rc).


(** A mounted [useDarkMode] that holds and has reported [v], with nothing
    in the store at its last render. *)
Definition mounted (v : JS.value) : Consumer :=
  {| inner := holding v; onceRef := true;
     lastInitial := JS.Undefined; lastValue := v |}.




(** The class list the reflector leaves in place of [l]: it stops at the
    first of its two names that the class list rejects. *)
Definition reflected (o : DarkModeConfig) (rendered : JS.value)
    (l : list string) : list string :=
  if well_formed (removed o rendered) then
    if well_formed (added o rendered)
    then token_add (added o rendered) (token_remove (removed o rendered) l)
    else token_remove (removed o rendered) l
  else l.


(** * Properties *)

(** ** What [detector] computes *)

Lemma detector_browser initialState o h w :
  detector initialState o h browser w =
    if JS.is_undefined initialState
    then (setDarkMode (JS.Bool (prefersDark w)) h, record QueryMedia w)
    else (h, w).
Proof.
  unfold detector, bind, isServerSide, ret, matchMedia; simpl.
  destruct (JS.truthy_string (storageKey_of o)); simpl;
    rewrite andb_true_r; destruct (JS.is_undefined initialState); reflexivity.
Qed.

Lemma detector_ssr initialState o h w :
  detector initialState o h ssr w =
    (h, if JS.truthy_string (storageKey_of o)
        then record (ReadStore (storageKey_of o)) w else w).
Proof.
  unfold detector, bind, isServerSide, ret, getStorage; simpl.
  destruct (JS.truthy_string (storageKey_of o)); simpl;
    rewrite andb_false_r; reflexivity.
Qed.

Lemma env_cases (e : Env) : e = browser ∨ e = ssr.
Proof. destruct e as [[|]]; [right | left]; reflexivity. Qed.

Lemma detector_cases initialState o h e w :
  detector initialState o h e w =
    (if negb (server e) && JS.is_undefined initialState
     then setDarkMode (JS.Bool (prefersDark w)) h else h,
     if server e
     then if JS.truthy_string (storageKey_of o)
          then record (ReadStore (storageKey_of o)) w else w
     else if JS.is_undefined initialState then record QueryMedia w else w).
Proof.
  destruct (env_cases e) as [-> | ->]; simpl.
  - rewrite detector_browser. destruct (JS.is_undefined initialState); reflexivity.
  - apply detector_ssr.
Qed.

(** The first render in a browser: the store plays no part in it. *)
Lemma first_render_browser initialState o w :
  useDarkModeInternal initialState o (mount initialState) browser w =
    if JS.is_undefined initialState
    then ({| value := JS.Bool (prefersDark w);
             toggleFn := HookToggle (storageKey_of o) |},
          {| darkMode := JS.Bool (prefersDark w); triggerOnce := true |},
          record QueryMedia w)
    else ({| value := initialState; toggleFn := HookToggle (storageKey_of o) |},
          {| darkMode := initialState; triggerOnce := true |},
          w).
Proof.
  unfold useDarkModeInternal, bind; simpl.
  rewrite detector_browser.
  destruct (JS.is_undefined initialState); reflexivity.
Qed.

(** A later render changes neither the state nor the world. *)
Lemma later_render initialState o h e w :
  triggerOnce h = true →
  useDarkModeInternal initialState o h e w =
    (if server e
     then {| value := JS.Bool false; toggleFn := NoopToggle |}
     else {| value := darkMode h; toggleFn := HookToggle (storageKey_of o) |},
     h, w).
Proof.
  intros Hlatch. unfold useDarkModeInternal, bind, isServerSide, ret.
  rewrite Hlatch. destruct (server e); reflexivity.
Qed.

(** ** The first reconciliation pass *)

(** C1.  The claim asks that a client-side first pass set the mode to a
    stored ["true"] or ["false"].  With the default key, the string ["true"]
    stored under it, no initial value and an OS preference for light, the
    first render reports [false]: the store is never read (the only host
    call is the media query), because [detector] reads it only when it is
    not client-side. *)
Theorem first_pass_ignores_stored_preference :
  let w := fresh {[ darkModeKey := "true" ]} false in
  let '(rh, w') :=
    useDarkModeInternal JS.Undefined defaults (mount JS.Undefined) browser w in
  store w !! storageKey_of defaults = Some "true" ∧
  value (fst rh) = JS.Bool false ∧
  darkMode (snd rh) = JS.Bool false ∧
  journal w' = [QueryMedia].
Proof. vm_compute. repeat split. Qed.

(** ** Rendering on a server *)

Lemma effects_ssr initialState o h w :
  effects initialState o h ssr w = (h, w).
Proof. reflexivity. Qed.

Lemma commit_ssr fuel initialState o h w :
  commit fuel initialState o h ssr w = (h, w).
Proof.
  destruct fuel as [| n]; [reflexivity |].
  simpl. unfold bind. rewrite effects_ssr.
  destruct (decide (darkMode h = darkMode h)); [reflexivity | congruence].
Qed.

Lemma reflector_ssr o rendered w :
  reflector o rendered ssr w = (Normal, w).
Proof. reflexivity. Qed.

(** C2.  The claim asks that activation on a server perform no storage
    read.  The activation does return [{ value: false, toggle }] with a
    toggle that does nothing, and it leaves the store and every class list
    as they were; but with a non-empty storage key it calls [getStorage] on
    that key, once, and that call is all it adds to the journal.  The guard
    in [detector] that should keep the read to the browser is the inverted
    one of C1. *)
Theorem server_activation_calls_getStorage fuel initialState o w :
  let '(rh, w') := activate fuel initialState o ssr w in
  value (fst rh) = JS.Bool false ∧
  toggleFn (fst rh) = NoopToggle ∧
  (∀ h0 e0 w0, call (toggleFn (fst rh)) h0 e0 w0 = (h0, w0)) ∧
  store w' = store w ∧
  classes w' = classes w ∧
  journal w' =
    (if JS.truthy_string (storageKey_of o)
     then ReadStore (storageKey_of o) :: journal w else journal w).
Proof.
  unfold activate, bind, useDarkModeInternal, bind. simpl.
  rewrite detector_ssr. simpl. rewrite commit_ssr. simpl.
  destruct (JS.truthy_string (storageKey_of o)); repeat split.
Qed.

(** ** Re-detection *)

Lemma detector_keeps_world initialState o h e w :
  store (snd (detector initialState o h e w)) = store w ∧
  prefersDark (snd (detector initialState o h e w)) = prefersDark w ∧
  classes (snd (detector initialState o h e w)) = classes w.
Proof.
  rewrite detector_cases. simpl.
  destruct (server e), (JS.is_undefined initialState),
    (JS.truthy_string (storageKey_of o)); repeat split.
Qed.

Lemma detector_twice initialState o h e w :
  let '(h1, w1) := detector initialState o h e w in
  fst (detector initialState o h1 e w1) = h1.
Proof.
  rewrite !detector_cases. simpl.
  destruct (server e), (JS.is_undefined initialState),
    (JS.truthy_string (storageKey_of o)); reflexivity.
Qed.

Lemma reflector_keeps_host o rendered e w :
  store (snd (reflector o rendered e w)) = store w ∧
  prefersDark (snd (reflector o rendered e w)) = prefersDark w.
Proof.
  unfold reflector, andThen, bind, isServerSide, ret, classList_remove,
    classList_add.
  destruct (server e); simpl; [by split |].
  destruct (JS.is_undefined rendered); simpl; [by split |].
  destruct (JS.truthy rendered), (default documentElement (element o));
    simpl; try (by split);
    destruct (well_formed (classNameLight_of o)),
      (well_formed (classNameDark_of o)); by split.
Qed.

Lemma effects_mode initialState o h e w :
  darkMode (fst (effects initialState o h e w)) =
    (if negb (server e) && JS.is_undefined initialState
     then JS.Bool (prefersDark w) else darkMode h) ∧
  prefersDark (snd (effects initialState o h e w)) = prefersDark w.
Proof.
  unfold effects, bind, isServerSide, ret.
  destruct (server e) eqn:Hs; simpl; [by split |].
  pose proof (detector_cases initialState o h e w) as Hd.
  rewrite Hs in Hd; simpl in Hd. rewrite Hd.
  destruct (JS.is_undefined initialState); simpl;
    match goal with
    | |- context [reflector ?o ?r ?e ?w] =>
        destruct (reflector_keeps_host o r e w) as [_ Hp];
        destruct (reflector o r e w) as [[] w']; simpl in *; by split
    end.
Qed.

(** After one round of effects a second round leaves [darkMode] alone. *)
Lemma effects_settled initialState o h e w :
  let '(h1, w1) := effects initialState o h e w in
  darkMode (fst (effects initialState o h1 e w1)) = darkMode h1.
Proof.
  destruct (effects_mode initialState o h e w) as [Hm Hp].
  destruct (effects initialState o h e w) as [h1 w1]; simpl in *.
  destruct (effects_mode initialState o h1 e w1) as [Hm1 _].
  rewrite Hm1, Hm, Hp.
  destruct (negb (server e) && JS.is_undefined initialState); reflexivity.
Qed.

(** C8.  [detector] is idempotent: run again on the state and the world the
    first run left, with the same initial value, options and context, it
    returns the hook unchanged, so the mode is the one the first run
    produced.  The loop in which a change of [darkMode] triggers the
    detecting effect therefore settles: two rounds of effects reach the
    state that any larger number of rounds reaches. *)
Theorem detector_idempotent initialState o h e w :
  (let '(h1, w1) := detector initialState o h e w in
   let '(h2, w2) := detector initialState o h1 e w1 in
   darkMode h2 = darkMode h1 ∧ h2 = h1 ∧
   store w1 = store w ∧ prefersDark w1 = prefersDark w) ∧
  (∀ n, commit (S (S n)) initialState o h e w = commit 2 initialState o h e w).
Proof.
  split.
  - pose proof (detector_twice initialState o h e w) as Ht.
    destruct (detector_keeps_world initialState o h e w) as (Hs & Hp & _).
    destruct (detector initialState o h e w) as [h1 w1]; simpl in *.
    destruct (detector initialState o h1 e w1) as [h2 w2]; simpl in *.
    subst h2. repeat split; assumption.
  - intros n. simpl. unfold bind.
    pose proof (effects_settled initialState o h e w) as Hfix.
    destruct (effects initialState o h e w) as [h1 w1].
    destruct (decide (darkMode h1 = darkMode h)); [reflexivity |].
    destruct (effects initialState o h1 e w1) as [h2 w2]; simpl in Hfix.
    destruct (decide (darkMode h2 = darkMode h1)); [reflexivity | contradiction].
Qed.

(** ** Unload *)

Lemma unloadHandler_browser h w :
  unloadHandler h browser w =
    (h, if JS.strict_eq_bool (prefersDark w) (darkMode h)
        then record (DeleteStore darkModeKey)
               (with_store (delete darkModeKey (store w)) (record QueryMedia w))
        else record QueryMedia w).
Proof.
  unfold unloadHandler, getDarkMode, bind, matchMedia, delStorage, ret; simpl.
  destruct (JS.strict_eq_bool (prefersDark w) (darkMode h)); reflexivity.
Qed.

(** With the default key the redundant override does go away. *)
Lemma unload_default_key o h w :
  storageKey o = None →
  JS.strict_eq_bool (prefersDark w) (darkMode h) = true →
  store (snd (step o Unload h browser w)) !! storageKey_of o = None.
Proof.
  intros Hk Heq. simpl. rewrite unloadHandler_browser, Heq. simpl.
  unfold storageKey_of. rewrite Hk. simpl. apply lookup_delete_eq.
Qed.

(** C3.  The claim asks that unload delete the preference stored under the
    configured key whenever the OS preference equals the mode.  With the key
    ["theme"] configured, ["true"] stored under it, mode [true] and an OS
    preference for dark, the two are equal and yet the value is still there
    after unload: the listener deletes under the constant ["darkMode"], not
    under the configured key. *)
Theorem unload_spares_configured_key :
  let w := fresh {[ "theme" := "true" ]} true in
  let h := holding (JS.Bool true) in
  let '(h', w') := step themed Unload h browser w in
  JS.strict_eq_bool (prefersDark w) (darkMode h) = true ∧
  storageKey_of themed = "theme" ∧
  store w' !! storageKey_of themed = Some "true" ∧
  journal w' = [DeleteStore "darkMode"; QueryMedia].
Proof. vm_compute. repeat split. Qed.

(** ** Toggle *)

Lemma toggle_browser k h w :
  toggle k h browser w =
    (setDarkMode (JS.Bool (JS.not (darkMode h))) h,
     if JS.truthy_string k
     then record (WriteStore k (JS.String_of_bool (JS.not (darkMode h))))
            (with_store (<[k := JS.String_of_bool (JS.not (darkMode h))]> (store w)) w)
     else w).
Proof.
  unfold toggle, bind, isServerSide, setStorage, ret; simpl.
  rewrite andb_true_r. destruct (JS.truthy_string k); reflexivity.
Qed.

Lemma toggle_mode k h e w :
  darkMode (fst (toggle k h e w)) = JS.Bool (JS.not (darkMode h)).
Proof.
  unfold toggle, bind, isServerSide, setStorage, ret; simpl.
  destruct (JS.truthy_string k && negb (server e)); simpl;
    [destruct (server e) |]; reflexivity.
Qed.

Lemma useDarkModeInternal_latch initialState o h e w :
  triggerOnce (snd (fst (useDarkModeInternal initialState o h e w))) = true.
Proof.
  unfold useDarkModeInternal, bind, isServerSide, ret.
  destruct (triggerOnce h) eqn:Hl.
  - destruct (server e); simpl; assumption.
  - rewrite detector_cases.
    destruct (negb (server e) && JS.is_undefined initialState), (server e);
      reflexivity.
Qed.

Lemma useDarkModeInternal_browser_value initialState o h w :
  let '(rh, w') := useDarkModeInternal initialState o h browser w in
  value (fst rh) = darkMode (snd rh) ∧
  toggleFn (fst rh) = HookToggle (storageKey_of o) ∧
  store w' = store w.
Proof.
  unfold useDarkModeInternal, bind, isServerSide, ret.
  destruct (triggerOnce h); simpl; [repeat split |].
  rewrite detector_browser.
  destruct (JS.is_undefined initialState); repeat split.
Qed.

(** C4.  In a browser, render, call the returned [toggle], render again:
    the value now reported is the boolean negation of the value reported
    before, whatever that value was.  With a non-empty storage key the store
    holds [String(newValue)] under that key, and no other key changed; with
    an empty key the store is as it was.  The updater itself negates the
    mode in every context. *)
Theorem toggle_negates_and_persists initialState o h w :
  (let '(rh1, w1) := useDarkModeInternal initialState o h browser w in
   let '(h2, w2) := call (toggleFn (fst rh1)) (snd rh1) browser w1 in
   let '(rh3, w3) := useDarkModeInternal initialState o h2 browser w2 in
   let newValue := JS.not (value (fst rh1)) in
   value (fst rh3) = JS.Bool newValue ∧
   darkMode (snd rh3) = JS.Bool newValue ∧
   store w3 =
     (if JS.truthy_string (storageKey_of o)
      then <[storageKey_of o := JS.String_of_bool newValue]> (store w)
      else store w) ∧
   (if JS.truthy_string (storageKey_of o)
    then store w3 !! storageKey_of o = Some (JS.String_of_bool newValue)
    else True)) ∧
  (∀ k e h0 w0, darkMode (fst (toggle k h0 e w0)) = JS.Bool (JS.not (darkMode h0))).
Proof.
  split; [| intros; apply toggle_mode].
  pose proof (useDarkModeInternal_browser_value initialState o h w) as H1.
  pose proof (useDarkModeInternal_latch initialState o h browser w) as Hl.
  destruct (useDarkModeInternal initialState o h browser w) as [[r1 h1] w1].
  simpl in *. destruct H1 as (Hv & Ht & Hs). rewrite Ht. simpl.
  rewrite toggle_browser.
  rewrite later_render by (simpl; exact Hl). simpl.
  rewrite Hv, Hs.
  destruct (JS.truthy_string (storageKey_of o)); simpl; repeat split;
    try assumption.
  apply lookup_insert_eq.
Qed.

(** ** Change of the OS preference *)

(** The boolean the listener parses out of what the store holds. *)
Lemma handler_browser o matches h w :
  handler o matches h browser w =
    (setDarkMode (JS.Bool matches) h,
     if eqb (JS.strict_eq_string (JS.of_lookup (store w !! storageKey_of o)) "true")
            matches
     then record (DeleteStore (storageKey_of o))
            (with_store (delete (storageKey_of o) (store w))
               (record (ReadStore (storageKey_of o)) w))
     else record (ReadStore (storageKey_of o)) w).
Proof.
  unfold handler, bind, getStorage, delStorage, ret; simpl.
  destruct (eqb _ matches); reflexivity.
Qed.

(** C5.  When the OS preference changes to [matches] in a browser, the mode
    becomes [matches]; the preference stored under the configured key is
    deleted exactly when its boolean parse (is it the string ["true"]?)
    equals [matches], and otherwise the store is left as it was.  No other
    key is affected in either case. *)
Theorem media_change_merges_back o matches h w :
  let '(h', w') := step o (MediaChange matches) h browser w in
  let parsed :=
    JS.strict_eq_string (JS.of_lookup (store w !! storageKey_of o)) "true" in
  darkMode h' = JS.Bool matches ∧
  prefersDark w' = matches ∧
  store w' =
    (if eqb parsed matches then delete (storageKey_of o) (store w) else store w) ∧
  journal w' =
    ((if eqb parsed matches then [DeleteStore (storageKey_of o)] else []) ++
     ReadStore (storageKey_of o) :: journal w)%list.
Proof.
  simpl. unfold bind, setPrefersDark. rewrite handler_browser. simpl.
  destruct (eqb _ matches); simpl; repeat split.
Qed.

(** ** Change of the store in another tab *)

Lemma storageHandler_browser o h w :
  storageHandler o h browser w =
    match store w !! storageKey_of o with
    | None =>
        (setDarkMode (JS.Bool (prefersDark w)) h,
         record QueryMedia (record (ReadStore (storageKey_of o)) w))
    | Some s =>
        (if bool_decide (s = "true") then setDarkMode (JS.Bool true) h
         else if bool_decide (s = "false") then setDarkMode (JS.Bool false) h
         else h,
         record (ReadStore (storageKey_of o)) w)
    end.
Proof.
  unfold storageHandler, bind, getStorage, matchMedia, ret; simpl.
  destruct (store w !! storageKey_of o) as [s |]; simpl; [| reflexivity].
  destruct (bool_decide (s = "true")); [reflexivity |].
  destruct (bool_decide (s = "false")); reflexivity.
Qed.

(** C6.  On a storage event in a browser: with nothing stored under the
    configured key the mode becomes the current OS preference; with ["true"]
    stored it becomes [true], with ["false"] it becomes [false] (any other
    string leaves it alone).  Hence,
    for two tabs on the same non-empty key, once tab A has toggled and tab B
    has handled the storage event, B holds the mode A holds. *)
Theorem storage_change_propagates o hA hB w :
  (let '(hB', _) := storageHandler o hB browser w in
   darkMode hB' =
     match store w !! storageKey_of o with
     | None => JS.Bool (prefersDark w)
     | Some s =>
         if bool_decide (s = "true") then JS.Bool true
         else if bool_decide (s = "false") then JS.Bool false
         else darkMode hB
     end) ∧
  (JS.truthy_string (storageKey_of o) = true →
   let '(hA', w1) := call (HookToggle (storageKey_of o)) hA browser w in
   let '(hB', _) := storageHandler o hB browser w1 in
   darkMode hA' = JS.Bool (JS.not (darkMode hA)) ∧
   darkMode hB' = darkMode hA').
Proof.
  split.
  - rewrite storageHandler_browser.
    destruct (store w !! storageKey_of o) as [s |]; simpl; [| reflexivity].
    destruct (bool_decide (s = "true")); [reflexivity |].
    destruct (bool_decide (s = "false")); reflexivity.
  - intros Hk. simpl. rewrite toggle_browser, Hk.
    rewrite storageHandler_browser. simpl.
    rewrite lookup_insert_eq.
    destruct (JS.not (darkMode hA)); simpl; split; reflexivity.
Qed.

Lemma storage_change_propagates_witness :
  JS.truthy_string (storageKey_of defaults) = true ∧
  (let '(hA', w1) :=
     call (HookToggle (storageKey_of defaults)) (holding (JS.Bool false))
       browser (fresh ∅ false) in
   let '(hB', _) := storageHandler defaults (holding (JS.Bool false)) browser w1 in
   darkMode hA' = JS.Bool (JS.not (darkMode (holding (JS.Bool false)))) ∧
   darkMode hB' = darkMode hA').
Proof.
  split; [reflexivity |].
  apply (proj2 (storage_change_propagates defaults (holding (JS.Bool false))
                  (holding (JS.Bool false)) (fresh ∅ false))).
  reflexivity.
Defined.

(** ** The mode stays determined *)

Lemma handler_mode o matches h e w :
  darkMode (fst (handler o matches h e w)) = JS.Bool matches.
Proof.
  unfold handler, bind.
  destruct (getStorage (storageKey_of o) false e w) as [storageValue w'].
  destruct (eqb (JS.strict_eq_string storageValue "true") matches);
    [| reflexivity].
  destruct (delStorage (storageKey_of o) e w'). reflexivity.
Qed.

Lemma storageHandler_determined o h e w :
  determined h → determined (fst (storageHandler o h e w)).
Proof.
  intros Hh. unfold storageHandler, bind, getStorage, matchMedia, ret.
  destruct (server e); simpl; [reflexivity |].
  destruct (store w !! storageKey_of o) as [s |]; simpl; [| reflexivity].
  destruct (bool_decide (s = "true")); [reflexivity |].
  destruct (bool_decide (s = "false")); [reflexivity | exact Hh].
Qed.

Lemma detector_determined initialState o h e w :
  determined h → determined (fst (detector initialState o h e w)).
Proof.
  intros Hh. rewrite detector_cases.
  destruct (negb (server e) && JS.is_undefined initialState);
    [reflexivity | exact Hh].
Qed.

Lemma unloadHandler_hook h e w : fst (unloadHandler h e w) = h.
Proof.
  unfold unloadHandler, getDarkMode, bind, matchMedia, delStorage, ret; simpl.
  destruct (JS.strict_eq_bool (prefersDark w) (darkMode h)); simpl;
    [destruct (server e) |]; reflexivity.
Qed.

Lemma reflector_then_hook o h e w :
  fst ((reflector o (darkMode h) ;;; ret h) e w) = h.
Proof.
  unfold bind. destruct (reflector o (darkMode h) e w). reflexivity.
Qed.

Lemma step_determined o ev h e w :
  determined h → determined (fst (step o ev h e w)).
Proof.
  intros Hh. destruct ev as [f | matches | s | | initialState | initialState |].
  - destruct f as [| k]; simpl; [exact Hh |].
    unfold determined. rewrite toggle_mode. reflexivity.
  - simpl. unfold bind, setPrefersDark.
    unfold determined. rewrite handler_mode. reflexivity.
  - simpl. unfold bind, setStore. by apply storageHandler_determined.
  - simpl. rewrite unloadHandler_hook. exact Hh.
  - simpl. by apply detector_determined.
  - simpl. unfold bind, useDarkModeInternal, bind, isServerSide, ret.
    destruct (triggerOnce h).
    + destruct (server e); exact Hh.
    + pose proof (detector_determined initialState o h e w Hh) as Hd.
      destruct (detector initialState o h e w) as [h' w'].
      destruct (server e); exact Hd.
  - unfold step. rewrite reflector_then_hook. exact Hh.
Qed.

Lemma run_determined o evs : ∀ h e w,
  determined h → determined (fst (run o evs h e w)).
Proof.
  induction evs as [| ev evs IH]; intros h e w Hh; [exact Hh |].
  simpl. unfold bind.
  pose proof (step_determined o ev h e w Hh) as Hs.
  destruct (step o ev h e w) as [h' w']. by apply IH.
Qed.

(** C7.  In a browser the first render leaves [darkMode] determined, for
    every initial value, and so is the value it reports; [darkMode] then
    stays determined through any sequence of toggles, OS changes, storage
    changes, unloads, re-detections, renders and reflections. *)
Theorem mode_stays_determined initialState o w evs :
  let '(rh, w1) :=
    useDarkModeInternal initialState o (mount initialState) browser w in
  determined (snd rh) ∧
  JS.is_undefined (value (fst rh)) = false ∧
  determined (fst (run o evs (snd rh) browser w1)).
Proof.
  rewrite first_render_browser.
  destruct (JS.is_undefined initialState) eqn:Hi; simpl;
    (split; [| split]); try reflexivity; try exact Hi;
    apply run_determined; try reflexivity; exact Hi.
Qed.

(** ** The DOM reflector *)

Lemma token_remove_spec name c l :
  c ∈ token_remove name l ↔ c ≠ name ∧ c ∈ l.
Proof. unfold token_remove. by rewrite list_elem_of_filter. Qed.

Lemma token_add_spec name c l :
  c ∈ token_add name l ↔ c = name ∨ c ∈ l.
Proof.
  unfold token_add. destruct (decide (name ∈ l)) as [Hin | Hout].
  - split; [by right |]. intros [Heq | H]; [by subst c | exact H].
  - rewrite elem_of_app, list_elem_of_singleton. tauto.
Qed.




Lemma classList_with_classes id l w :
  classList (with_classes (<[id := l]> (classes w)) w) id = l.
Proof. unfold classList; simpl. by rewrite lookup_insert_eq. Qed.

(** The reflector at work in a browser, on a DOM element, with a determined
    mode: a name the class list rejects ends the effect where it is used. *)
Lemma reflector_dom_any o id rendered w :
  default documentElement (element o) = DomElement id →
  JS.is_undefined rendered = false →
  classes (snd (reflector o rendered browser w)) =
    (if well_formed (removed o rendered)
     then <[id := (if well_formed (added o rendered)
                   then token_add (added o rendered) else λ l, l)
                    (token_remove (removed o rendered) (classList w id))]> (classes w)
     else classes w) ∧
  journal (snd (reflector o rendered browser w)) =
    (if well_formed (removed o rendered)
     then ClassAdd id (added o rendered) :: ClassRemove id (removed o rendered)
            :: journal w
     else ClassRemove id (removed o rendered) :: journal w) ∧
  store (snd (reflector o rendered browser w)) = store w.
Proof.
  intros Hel Hdef.
  unfold reflector, andThen, bind, isServerSide, ret, classList_remove,
    classList_add, added, removed.
  simpl. rewrite Hdef, Hel. simpl.
  destruct (JS.truthy rendered); simpl;
    destruct (well_formed (classNameLight_of o)),
      (well_formed (classNameDark_of o)); simpl;
    unfold classList; simpl;
    rewrite ?lookup_insert_eq, ?insert_insert_eq; repeat split.
Qed.

Lemma reflector_dom o id rendered w :
  default documentElement (element o) = DomElement id →
  JS.is_undefined rendered = false →
  well_formed (classNameDark_of o) = true →
  well_formed (classNameLight_of o) = true →
  let a := if JS.truthy rendered then classNameDark_of o else classNameLight_of o in
  let b := if JS.truthy rendered then classNameLight_of o else classNameDark_of o in
  classes (snd (reflector o rendered browser w)) =
    <[id := token_add a (token_remove b (classList w id))]> (classes w) ∧
  journal (snd (reflector o rendered browser w)) =
    ClassAdd id a :: ClassRemove id b :: journal w ∧
  store (snd (reflector o rendered browser w)) = store w.
Proof.
  intros Hel Hdef Hwd Hwl.
  destruct (reflector_dom_any o id rendered w Hel Hdef) as (Hc & Hj & Hs).
  unfold added, removed in *.
  destruct (JS.truthy rendered); rewrite ?Hwd, ?Hwl in *; by repeat split.
Qed.

Lemma classList_insert id l m w :
  classes w = <[id := l]> m → classList w id = l.
Proof. intros Hc. unfold classList. by rewrite Hc, lookup_insert_eq. Qed.






(** ** The public entry point *)

Lemma publicOptions_browser w :
  publicOptions browser w =
    ({| classNameDark := Some "dark"; classNameLight := Some "light";
        element := Some documentElement; storageKey := Some darkModeKey |}, w).
Proof. reflexivity. Qed.

(** The first render of [useDarkMode] in a browser with a string stored
    under ["darkMode"]: the string itself becomes the state. *)
Lemma useDarkMode_first_render s w :
  store w !! darkModeKey = Some s →
  useDarkMode None browser w =
    ({| value := JS.Str s; toggleFn := HookToggle darkModeKey |},
     {| inner := holding (JS.Str s); onceRef := true;
        lastInitial := JS.Str s; lastValue := JS.Str s |},
     with_mediaStore
       {| isDark := isDark (mediaStore w); cellToggle := HookToggle darkModeKey |}
       (record (ReadStore darkModeKey) w)).
Proof.
  intros Hs. unfold useDarkMode, bind, getStorage. simpl. rewrite Hs.
  reflexivity.
Qed.

(** C10.  In a browser with the string ["false"] stored under ["darkMode"],
    mounting [useDarkMode] reports that string as the value, and it is
    truthy; the host calls made are one read of the store and the two
    class-list calls, so the media query is never asked; and the root
    element ends with the class ["dark"] and without the class ["light"]. *)
Theorem stored_false_string_shows_dark n w :
  store w !! darkModeKey = Some "false" →
  let '(rc, w') := useDarkMode_mount (S n) browser w in
  value (fst rc) = JS.Str "false" ∧
  JS.truthy (value (fst rc)) = true ∧
  darkMode (inner (snd rc)) = JS.Str "false" ∧
  journal w' =
    ([ClassAdd 0 "dark"; ClassRemove 0 "light"; ReadStore darkModeKey] ++
     journal w)%list ∧
  (QueryMedia ∉ [ClassAdd 0 "dark"; ClassRemove 0 "light"; ReadStore darkModeKey]) ∧
  "dark" ∈ classList w' 0 ∧
  "light" ∉ classList w' 0.
Proof.
  intros Hs. unfold useDarkMode_mount, bind.
  rewrite (useDarkMode_first_render _ _ Hs). simpl.
  unfold bind, useDarkMode_effects, bind, effects, bind. simpl.
  unfold classList; simpl. rewrite !lookup_insert_eq. simpl.
  repeat split.
  - intros Hin. repeat (apply elem_of_cons in Hin as [Hin | Hin]; [discriminate |]).
    by apply elem_of_nil in Hin.
  - rewrite token_add_spec. by left.
  - rewrite token_add_spec, token_remove_spec.
    intros [Heq | [Hneq _]]; [discriminate | by apply Hneq].
Qed.

Lemma stored_false_string_shows_dark_witness :
  store (fresh {[ darkModeKey := "false" ]} false) !! darkModeKey = Some "false" ∧
  (let '(rc, w') :=
     useDarkMode_mount 1 browser (fresh {[ darkModeKey := "false" ]} false) in
   value (fst rc) = JS.Str "false" ∧
   JS.truthy (value (fst rc)) = true ∧
   darkMode (inner (snd rc)) = JS.Str "false" ∧
   journal w' =
     ([ClassAdd 0 "dark"; ClassRemove 0 "light"; ReadStore darkModeKey] ++
      journal (fresh {[ darkModeKey := "false" ]} false))%list ∧
   (QueryMedia ∉ [ClassAdd 0 "dark"; ClassRemove 0 "light"; ReadStore darkModeKey]) ∧
   "dark" ∈ classList w' 0 ∧
   "light" ∉ classList w' 0).
Proof.
  split; [reflexivity |].
  apply (stored_false_string_shows_dark 0 (fresh {[ darkModeKey := "false" ]} false)).
  reflexivity.
Defined.

(** * Further properties of the hook *)

(** ** Renders and commits of the inner hook *)

(** X1.  In a browser the first render of [useDarkModeInternal] does not
    depend on the store: with any other store in place it returns the same
    result and leaves the same hook.  The value is the initial value when
    one was passed and the OS preference otherwise, the store is not
    modified, and the only host call is the media query, made exactly when
    no initial value was passed. *)
Theorem first_render_ignores_store initialState o w s :
  let '(rh, w1) := useDarkModeInternal initialState o (mount initialState) browser w in
  let '(rh', _) :=
    useDarkModeInternal initialState o (mount initialState) browser (with_store s w) in
  rh' = rh ∧
  value (fst rh) =
    (if JS.is_undefined initialState then JS.Bool (prefersDark w) else initialState) ∧
  store w1 = store w ∧
  journal w1 =
    (if JS.is_undefined initialState then QueryMedia :: journal w else journal w).
Proof.
  rewrite !first_render_browser.
  destruct (JS.is_undefined initialState); simpl; repeat split.
Qed.

Lemma effects_keeps_host initialState o h e w :
  store (snd (effects initialState o h e w)) = store w ∧
  mediaStore (snd (effects initialState o h e w)) = mediaStore w.
Proof.
  unfold effects, bind, isServerSide, ret.
  destruct (server e) eqn:Hs; simpl; [by split |].
  rewrite detector_cases, Hs. simpl.
  unfold reflector, andThen, bind, isServerSide, ret, classList_remove,
    classList_add.
  rewrite Hs. simpl.
  destruct (JS.is_undefined initialState); simpl;
    destruct (JS.is_undefined (darkMode h)); simpl; try (by split);
    destruct (JS.truthy (darkMode h)), (default documentElement (element o));
    simpl; try (by split);
    destruct (well_formed (classNameLight_of o)),
      (well_formed (classNameDark_of o)); by split.
Qed.

Lemma effects_latch initialState o h e w :
  triggerOnce (fst (effects initialState o h e w)) = triggerOnce h.
Proof.
  unfold effects, bind, isServerSide, ret.
  destruct (server e) eqn:Hs; simpl; [reflexivity |].
  rewrite detector_cases, Hs. simpl.
  destruct (JS.is_undefined initialState); simpl;
    match goal with
    | |- context [reflector ?o ?r ?e ?w] => destruct (reflector o r e w)
    end; reflexivity.
Qed.

(** Once [darkMode] is what the detecting effect would set, further commits
    keep it. *)
Lemma commit_stable initialState o e n : ∀ h w,
  (negb (server e) && JS.is_undefined initialState = true →
   darkMode h = JS.Bool (prefersDark w)) →
  let '(h', w') := commit n initialState o h e w in
  darkMode h' = darkMode h ∧ triggerOnce h' = triggerOnce h ∧
  store w' = store w ∧ prefersDark w' = prefersDark w ∧
  mediaStore w' = mediaStore w.
Proof.
  induction n as [| n IH]; intros h w Hfix; [repeat split |].
  simpl. unfold bind.
  destruct (effects_mode initialState o h e w) as [Hm Hp].
  destruct (effects_keeps_host initialState o h e w) as [Hs Hc].
  pose proof (effects_latch initialState o h e w) as Hl.
  destruct (effects initialState o h e w) as [h1 w1]; simpl in *.
  assert (darkMode h1 = darkMode h) as Heq.
  { rewrite Hm.
    destruct (negb (server e) && JS.is_undefined initialState);
      [symmetry; by apply Hfix | reflexivity]. }
  destruct (decide (darkMode h1 = darkMode h)); [| contradiction].
  repeat split; assumption.
Qed.

Lemma commit_mode_facts initialState o h w n :
  let '(h', w') := commit (S n) initialState o h browser w in
  darkMode h' =
    (if JS.is_undefined initialState then JS.Bool (prefersDark w) else darkMode h) ∧
  triggerOnce h' = triggerOnce h ∧
  store w' = store w ∧
  prefersDark w' = prefersDark w ∧
  mediaStore w' = mediaStore w.
Proof.
  simpl. unfold bind.
  destruct (effects_mode initialState o h browser w) as [Hm Hp].
  destruct (effects_keeps_host initialState o h browser w) as [Hs Hc].
  pose proof (effects_latch initialState o h browser w) as Hl.
  destruct (effects initialState o h browser w) as [h1 w1]; simpl in *.
  destruct (decide (darkMode h1 = darkMode h)); [repeat split; assumption |].
  pose proof (commit_stable initialState o browser n h1 w1) as Hst.
  destruct (commit n initialState o h1 browser w1) as [h2 w2].
  destruct Hst as (Hm2 & Hl2 & Hs2 & Hp2 & Hc2).
  { simpl. intros Hu. rewrite Hm, Hu, Hp. reflexivity. }
  rewrite Hm2, Hl2, Hs2, Hp2, Hc2. repeat split; assumption.
Qed.

(** X2.  What a commit leaves in a browser, for any state it starts from:
    without an initial value the mode ends equal to the OS preference, with
    one it ends as it started.  The store, the OS preference, the cell and
    the [triggerOnce] ref are untouched. *)
Theorem commit_mode initialState o h w n :
  let '(h', w') := commit (S n) initialState o h browser w in
  darkMode h' =
    (if JS.is_undefined initialState then JS.Bool (prefersDark w) else darkMode h) ∧
  triggerOnce h' = triggerOnce h ∧
  store w' = store w ∧
  prefersDark w' = prefersDark w ∧
  mediaStore w' = mediaStore w.
Proof. apply commit_mode_facts. Qed.

Lemma not_changes d : JS.Bool (JS.not d) ≠ d.
Proof. destruct d as [| [|] | s]; discriminate. Qed.

(** X3.  A toggle of [useDarkModeInternal] in a browser, once rendered and
    committed: with an initial value the mode is the negation of the old
    one; without an initial value the detecting effect runs again and puts
    the OS preference back, whatever was toggled.  In both cases a non-empty
    key holds the string of the negation, so without an initial value the
    store and the mode disagree whenever the negation differs from the OS
    preference. *)
Theorem toggle_then_commit initialState o h w n :
  JS.truthy_string (storageKey_of o) = true →
  let '(h', w') := toggle_and_commit (S n) initialState o h browser w in
  darkMode h' =
    (if JS.is_undefined initialState then JS.Bool (prefersDark w)
     else JS.Bool (JS.not (darkMode h))) ∧
  store w' !! storageKey_of o = Some (JS.String_of_bool (JS.not (darkMode h))).
Proof.
  intros Hk. unfold toggle_and_commit, bind. simpl call.
  rewrite toggle_browser, Hk. cbn [darkMode setDarkMode].
  destruct (decide (JS.Bool (JS.not (darkMode h)) = darkMode h)) as [Heq | _];
    [by apply not_changes in Heq |].
  match goal with
  | |- context [commit (S n) ?i ?o ?h1 browser ?w1] =>
      pose proof (commit_mode_facts i o h1 w1 n) as Hc;
      destruct (commit (S n) i o h1 browser w1) as [h2 w2]
  end.
  destruct Hc as (Hm & _ & Hs & _). rewrite Hm, Hs. simpl.
  split; [reflexivity | apply lookup_insert_eq].
Qed.

Lemma toggle_then_commit_witness :
  JS.truthy_string (storageKey_of defaults) = true ∧
  (let '(h', w') :=
     toggle_and_commit 1 JS.Undefined defaults (holding (JS.Bool false))
       browser (fresh ∅ false) in
   darkMode h' = JS.Bool false ∧
   store w' !! storageKey_of defaults = Some "true").
Proof.
  split; [reflexivity |].
  apply (toggle_then_commit JS.Undefined defaults (holding (JS.Bool false))
           (fresh ∅ false) 0).
  reflexivity.
Defined.

(** ** The element after a commit *)

Lemma exclusive_swap o rendered l :
  classNameDark_of o ≠ classNameLight_of o →
  exclusive o rendered
    (token_add (if JS.truthy rendered then classNameDark_of o else classNameLight_of o)
       (token_remove
          (if JS.truthy rendered then classNameLight_of o else classNameDark_of o) l)).
Proof.
  intros Hne. unfold exclusive.
  destruct (JS.truthy rendered);
    rewrite !token_add_spec, !token_remove_spec; split; auto;
    intros [Heq | [Hneq _]]; congruence.
Qed.

Lemma effects_classes initialState o id h w :
  target o = DomElement id →
  well_formed (classNameDark_of o) = true →
  well_formed (classNameLight_of o) = true →
  determined h →
  classes (snd (effects initialState o h browser w)) =
    <[id := token_add
              (if JS.truthy (darkMode h) then classNameDark_of o else classNameLight_of o)
              (token_remove
                 (if JS.truthy (darkMode h) then classNameLight_of o else classNameDark_of o)
                 (classList w id))]> (classes w).
Proof.
  intros Hel Hwd Hwl Hdet. unfold effects, bind, isServerSide, ret. simpl.
  rewrite detector_browser.
  destruct (JS.is_undefined initialState); simpl;
    match goal with
    | |- context [reflector ?o ?r browser ?w0] =>
        destruct (reflector_dom o id r w0 Hel Hdet Hwd Hwl) as (Hc & _ & _);
        destruct (reflector o r browser w0) as [r1 w1]
    end; simpl in *; exact Hc.
Qed.

(** X4.  In a browser, after a commit that may run its effects twice, the
    class list of the target element shows the mode the hook ends with: for
    a DOM element and two different class names that the class list accepts
    (not empty, no whitespace), it holds the class of that mode and not the
    other one, even when the detecting effect changed the mode after the
    reflector had first run. *)
Theorem commit_reflects_final_mode initialState o id h w n :
  target o = DomElement id →
  classNameDark_of o ≠ classNameLight_of o →
  well_formed (classNameDark_of o) = true →
  well_formed (classNameLight_of o) = true →
  determined h →
  let '(h', w') := commit (S (S n)) initialState o h browser w in
  exclusive o (darkMode h') (classList w' id).
Proof.
  intros Hel Hne Hwd Hwl Hdet. simpl. unfold bind.
  pose proof (effects_classes initialState o id h w Hel Hwd Hwl Hdet) as Hc1.
  pose proof (effects_settled initialState o h browser w) as Hfix.
  destruct (effects_mode initialState o h browser w) as [Hm _].
  destruct (effects initialState o h browser w) as [h1 w1]; simpl in *.
  destruct (decide (darkMode h1 = darkMode h)) as [Heq | Hchg].
  - cbv beta iota delta [ret].
    rewrite (classList_insert _ _ _ _ Hc1), Heq. by apply exclusive_swap.
  - assert (determined h1) as Hdet1.
    { unfold determined. rewrite Hm.
      destruct (JS.is_undefined initialState); [reflexivity | exact Hdet]. }
    pose proof (effects_classes initialState o id h1 w1 Hel Hwd Hwl Hdet1) as Hc2.
    destruct (effects initialState o h1 browser w1) as [h2 w2]; simpl in *.
    destruct (decide (darkMode h2 = darkMode h1)); [| contradiction].
    cbv beta iota delta [ret].
    rewrite (classList_insert _ _ _ _ Hc2), Hfix. by apply exclusive_swap.
Qed.

Lemma commit_reflects_final_mode_witness :
  target defaults = DomElement 0 ∧
  classNameDark_of defaults ≠ classNameLight_of defaults ∧
  well_formed (classNameDark_of defaults) = true ∧
  well_formed (classNameLight_of defaults) = true ∧
  determined (holding (JS.Bool true)) ∧
  (let '(h', w') :=
     commit 2 JS.Undefined defaults (holding (JS.Bool true)) browser (fresh ∅ false) in
   exclusive defaults (darkMode h') (classList w' 0)).
Proof.
  split; [reflexivity |]. split; [discriminate |]. split; [reflexivity |].
  split; [reflexivity |]. split; [reflexivity |].
  apply (commit_reflects_final_mode JS.Undefined defaults 0 (holding (JS.Bool true))
           (fresh ∅ false) 0);
    [reflexivity | discriminate | reflexivity | reflexivity | reflexivity].
Defined.

(** ** What the reflector does to class lists *)

(** The class list of any element after the reflector has run, in any
    context. *)
Lemma reflector_classList o rendered e w id :
  classList (snd (reflector o rendered e w)) id =
    if negb (server e) && negb (JS.is_undefined rendered)
       && bool_decide (target o = DomElement id)
    then reflected o rendered (classList w id)
    else classList w id.
Proof.
  unfold reflector, andThen, bind, isServerSide, ret, target, reflected, added,
    removed.
  destruct (server e); simpl; [reflexivity |].
  destruct (JS.is_undefined rendered); simpl; [reflexivity |].
  destruct (default documentElement (element o)) as [tid |] eqn:Hel.
  - unfold classList_remove, classList_add.
    case_bool_decide as Hid.
    + injection Hid as ->.
      destruct (JS.truthy rendered);
        destruct (well_formed (classNameLight_of o)),
          (well_formed (classNameDark_of o));
        unfold classList; simpl; by rewrite ?lookup_insert_eq.
    + assert (tid ≠ id) as Hne by congruence.
      destruct (JS.truthy rendered);
        destruct (well_formed (classNameLight_of o)),
          (well_formed (classNameDark_of o));
        unfold classList; simpl; by rewrite ?lookup_insert_ne.
  - rewrite bool_decide_eq_false_2 by discriminate.
    destruct (JS.truthy rendered); reflexivity.
Qed.

Lemma reflected_well_formed o rendered l :
  well_formed (classNameDark_of o) = true →
  well_formed (classNameLight_of o) = true →
  reflected o rendered l =
    token_add (added o rendered) (token_remove (removed o rendered) l).
Proof.
  intros Hwd Hwl. unfold reflected, added, removed.
  destruct (JS.truthy rendered); by rewrite Hwd, Hwl.
Qed.

Lemma reflected_other o rendered l c :
  c ≠ classNameDark_of o →
  c ≠ classNameLight_of o →
  c ∈ reflected o rendered l ↔ c ∈ l.
Proof.
  intros Hd Hl.
  assert (c ≠ added o rendered ∧ c ≠ removed o rendered) as [Ha Hr]
    by (unfold added, removed; destruct (JS.truthy rendered); by split).
  unfold reflected.
  destruct (well_formed (removed o rendered)); [| tauto].
  destruct (well_formed (added o rendered));
    rewrite ?token_add_spec, token_remove_spec; tauto.
Qed.

Lemma reflector_keeps_rest o rendered e w :
  store (snd (reflector o rendered e w)) = store w ∧
  prefersDark (snd (reflector o rendered e w)) = prefersDark w ∧
  mediaStore (snd (reflector o rendered e w)) = mediaStore w.
Proof.
  unfold reflector, andThen, bind, isServerSide, ret, classList_remove,
    classList_add.
  destruct (server e); simpl; [repeat split |].
  destruct (JS.is_undefined rendered); simpl; [repeat split |].
  destruct (JS.truthy rendered), (default documentElement (element o));
    simpl; try (repeat split; fail);
    destruct (well_formed (classNameLight_of o)),
      (well_formed (classNameDark_of o)); repeat split.
Qed.

(** X5.  The reflector touches two class names on one element and nothing
    else: a class that is neither of the two configured names is on an
    element afterwards exactly when it was before, the class list of every
    element other than the target is unchanged, and so are the store, the
    OS preference and the cell. *)
Theorem reflector_frame o rendered e w id id' c :
  c ≠ classNameDark_of o →
  c ≠ classNameLight_of o →
  target o ≠ DomElement id' →
  let w' := snd (reflector o rendered e w) in
  (c ∈ classList w' id ↔ c ∈ classList w id) ∧
  classList w' id' = classList w id' ∧
  store w' = store w ∧
  prefersDark w' = prefersDark w ∧
  mediaStore w' = mediaStore w.
Proof.
  intros Hd Hl Hother. simpl.
  destruct (reflector_keeps_rest o rendered e w) as (Hs & Hp & Hm).
  rewrite !reflector_classList.
  rewrite (bool_decide_eq_false_2 _ Hother), andb_false_r.
  repeat split; try assumption;
    destruct (negb (server e) && negb (JS.is_undefined rendered)
              && bool_decide (target o = DomElement id)); try tauto;
    by apply reflected_other.
Qed.

Lemma reflector_frame_witness :
  "prose" ≠ classNameDark_of defaults ∧
  "prose" ≠ classNameLight_of defaults ∧
  target defaults ≠ DomElement 1 ∧
  (let w' := snd (reflector defaults (JS.Bool true) browser (fresh ∅ false)) in
   ("prose" ∈ classList w' 0 ↔ "prose" ∈ classList (fresh ∅ false) 0) ∧
   classList w' 1 = classList (fresh ∅ false) 1 ∧
   store w' = store (fresh ∅ false) ∧
   prefersDark w' = prefersDark (fresh ∅ false) ∧
   mediaStore w' = mediaStore (fresh ∅ false)).
Proof.
  split; [discriminate |]. split; [discriminate |]. split; [discriminate |].
  apply (reflector_frame defaults (JS.Bool true) browser (fresh ∅ false) 0 1 "prose");
    discriminate.
Defined.

(** X6.  Only the last mode reflected shows: with two class names that the
    class list accepts (not empty, no whitespace), reflecting any mode and
    then a determined one leaves every element with the same classes as
    reflecting the determined one alone, in any context and on any
    target. *)
Theorem reflector_last_mode_wins o r1 r2 e w id :
  well_formed (classNameDark_of o) = true →
  well_formed (classNameLight_of o) = true →
  JS.is_undefined r2 = false →
  same_classes
    (classList (snd (reflector o r2 e (snd (reflector o r1 e w)))) id)
    (classList (snd (reflector o r2 e w)) id).
Proof.
  intros Hwd Hwl Hdef c. rewrite !reflector_classList, Hdef.
  rewrite !(reflected_well_formed o _ _ Hwd Hwl).
  destruct (server e); simpl; [tauto |].
  case_bool_decide as Hid; [| rewrite andb_false_r; tauto].
  rewrite andb_true_r.
  destruct (JS.is_undefined r1); simpl; [tauto |].
  rewrite !token_add_spec, !token_remove_spec, !token_add_spec, !token_remove_spec.
  unfold added, removed.
  destruct (decide (c = classNameDark_of o)), (decide (c = classNameLight_of o)),
    (JS.truthy r1), (JS.truthy r2); tauto.
Qed.

Lemma reflector_last_mode_wins_witness :
  well_formed (classNameDark_of defaults) = true ∧
  well_formed (classNameLight_of defaults) = true ∧
  JS.is_undefined (JS.Bool false) = false ∧
  same_classes
    (classList
       (snd (reflector defaults (JS.Bool false) browser
               (snd (reflector defaults (JS.Bool true) browser (fresh ∅ false))))) 0)
    (classList (snd (reflector defaults (JS.Bool false) browser (fresh ∅ false))) 0).
Proof.
  split; [reflexivity |]. split; [reflexivity |]. split; [reflexivity |].
  apply (reflector_last_mode_wins defaults (JS.Bool true) (JS.Bool false) browser
           (fresh ∅ false) 0); reflexivity.
Defined.

(** ** Toggles and events, composed *)

Lemma not_not d : JS.not (JS.Bool (JS.not d)) = JS.truthy d.
Proof. unfold JS.not. simpl. apply negb_involutive. Qed.

(** X7.  Toggling twice in a browser gives back the mode as a boolean: a
    boolean mode is restored, any other value is replaced by its truthiness.
    With a non-empty key the store ends holding the string of that boolean
    under the key; with an empty key the store is never written. *)
Theorem toggle_twice k h w :
  let '(h1, w1) := toggle k h browser w in
  let '(h2, w2) := toggle k h1 browser w1 in
  darkMode h2 = JS.Bool (JS.truthy (darkMode h)) ∧
  triggerOnce h2 = triggerOnce h ∧
  store w2 =
    (if JS.truthy_string k
     then <[k := JS.String_of_bool (JS.truthy (darkMode h))]> (store w)
     else store w).
Proof.
  rewrite !toggle_browser. cbn [darkMode setDarkMode triggerOnce].
  rewrite !not_not.
  split; [reflexivity |]. split; [reflexivity |].
  destruct (JS.truthy_string k); simpl; [| reflexivity].
  apply insert_insert_eq.
Qed.

(** X8.  After a change of the OS preference has been handled in a browser,
    a preference that is still stored under the configured key contradicts
    the new OS value: it is ["true"] only if the OS now prefers light, and
    anything else only if the OS now prefers dark.  No other key of the
    store is affected. *)
Theorem media_change_leaves_only_contradicting_override o matches h w :
  let '(_, w') := step o (MediaChange matches) h browser w in
  match store w' !! storageKey_of o with
  | None => True
  | Some s => bool_decide (s = "true") = negb matches
  end ∧
  delete (storageKey_of o) (store w') = delete (storageKey_of o) (store w).
Proof.
  simpl. unfold bind, setPrefersDark. rewrite handler_browser. simpl.
  destruct (store w !! storageKey_of o) as [s |] eqn:Hs; simpl.
  - destruct (eqb (bool_decide (s = "true")) matches) eqn:Heq; simpl.
    + rewrite lookup_delete_eq. split; [exact I | apply delete_delete_eq].
    + rewrite Hs. split; [| reflexivity].
      destruct (bool_decide (s = "true")), matches; simpl in *; congruence.
  - destruct matches; simpl.
    + rewrite Hs. by split.
    + rewrite lookup_delete_eq. split; [exact I | apply delete_delete_eq].
Qed.

(** X9.  A toggle followed by a change of the OS preference, both in a
    browser and on a non-empty key: the mode ends as the new OS value.  If
    that is the value just toggled to, the stored override is deleted; if
    not, the override stays, holding the string of the toggled value, which
    the mode no longer has. *)
Theorem toggle_then_media_change o matches h w :
  JS.truthy_string (storageKey_of o) = true →
  let '(h1, w1) := call (HookToggle (storageKey_of o)) h browser w in
  let '(h2, w2) := step o (MediaChange matches) h1 browser w1 in
  darkMode h2 = JS.Bool matches ∧
  store w2 !! storageKey_of o =
    (if eqb (JS.not (darkMode h)) matches then None
     else Some (JS.String_of_bool (JS.not (darkMode h)))).
Proof.
  intros Hk. simpl. rewrite toggle_browser, Hk.
  unfold bind, setPrefersDark. rewrite handler_browser. simpl.
  rewrite lookup_insert_eq. simpl.
  destruct (JS.not (darkMode h)), matches; simpl;
    rewrite ?lookup_delete_eq, ?lookup_insert_eq; by split.
Qed.

Lemma toggle_then_media_change_witness :
  JS.truthy_string (storageKey_of defaults) = true ∧
  (let '(h1, w1) :=
     call (HookToggle (storageKey_of defaults)) (holding (JS.Bool false))
       browser (fresh ∅ false) in
   let '(h2, w2) := step defaults (MediaChange true) h1 browser w1 in
   darkMode h2 = JS.Bool true ∧
   store w2 !! storageKey_of defaults =
     (if eqb (JS.not (darkMode (holding (JS.Bool false)))) true then None
      else Some (JS.String_of_bool (JS.not (darkMode (holding (JS.Bool false))))))).
Proof.
  split; [reflexivity |].
  apply (toggle_then_media_change defaults true (holding (JS.Bool false))
           (fresh ∅ false)).
  reflexivity.
Defined.

(** ** The public hook in a browser *)

Lemma useDarkMode_first_render_browser w :
  useDarkMode None browser w =
    let initialState := JS.of_lookup (store w !! darkModeKey) in
    let v := if JS.is_undefined initialState
             then JS.Bool (prefersDark w) else initialState in
    ({| value := v; toggleFn := HookToggle darkModeKey |},
     {| inner := holding v; onceRef := true;
        lastInitial := initialState; lastValue := v |},
     with_mediaStore
       {| isDark := isDark (mediaStore w); cellToggle := HookToggle darkModeKey |}
       (if JS.is_undefined initialState
        then record QueryMedia (record (ReadStore darkModeKey) w)
        else record (ReadStore darkModeKey) w)).
Proof.
  unfold useDarkMode, bind, getStorage. simpl.
  destruct (store w !! darkModeKey) as [s |]; reflexivity.
Qed.

Lemma useDarkMode_effects_browser c w :
  useDarkMode_effects c browser w =
    (with_inner (fst (effects (lastInitial c) browserOptions (inner c) browser w)) c,
     with_mediaStore
       {| isDark := lastValue c;
          cellToggle :=
            cellToggle (mediaStore
              (snd (effects (lastInitial c) browserOptions (inner c) browser w))) |}
       (snd (effects (lastInitial c) browserOptions (inner c) browser w))).
Proof.
  unfold useDarkMode_effects, bind, isServerSide, publicOptions, bind, isServerSide,
    ret, setMediaStore. simpl.
  fold browserOptions.
  destruct (effects (lastInitial c) browserOptions (inner c) browser w).
  reflexivity.
Qed.

(** A consumer whose mode is already what its detecting effect would set is
    committed in one round: the effects publish its value and reflect its
    mode, and change nothing else. *)
Lemma useDarkMode_commit_settled n c w :
  (JS.is_undefined (lastInitial c) = true →
   darkMode (inner c) = JS.Bool (prefersDark w)) →
  determined (inner c) →
  let '(c', w') := useDarkMode_commit (S n) c browser w in
  darkMode (inner c') = darkMode (inner c) ∧
  triggerOnce (inner c') = triggerOnce (inner c) ∧
  lastValue c' = lastValue c ∧
  isDark (mediaStore w') = lastValue c ∧
  cellToggle (mediaStore w') = cellToggle (mediaStore w) ∧
  store w' = store w ∧
  prefersDark w' = prefersDark w ∧
  classList w' 0 =
    token_add (added browserOptions (darkMode (inner c)))
      (token_remove (removed browserOptions (darkMode (inner c))) (classList w 0)).
Proof.
  intros Hfix Hdet. simpl. unfold bind. rewrite useDarkMode_effects_browser.
  destruct (effects_mode (lastInitial c) browserOptions (inner c) browser w) as [Hm Hp].
  destruct (effects_keeps_host (lastInitial c) browserOptions (inner c) browser w)
    as [Hs Hc].
  pose proof (effects_latch (lastInitial c) browserOptions (inner c) browser w) as Hl.
  pose proof (effects_classes (lastInitial c) browserOptions 0 (inner c) w
                eq_refl eq_refl eq_refl Hdet) as Hcl.
  destruct (effects (lastInitial c) browserOptions (inner c) browser w) as [h1 w1].
  simpl in *.
  assert (darkMode h1 = darkMode (inner c)) as Heq.
  { rewrite Hm. destruct (JS.is_undefined (lastInitial c));
      [symmetry; by apply Hfix | reflexivity]. }
  destruct (decide (darkMode h1 = darkMode (inner c))); [| contradiction].
  cbv beta iota delta [ret]. simpl.
  repeat split; try assumption.
  - by rewrite Hc.
  - unfold classList at 1; simpl. rewrite Hcl, lookup_insert_eq. reflexivity.
Qed.

Lemma useDarkMode_mount_facts n w :
  let '(rc, w') := useDarkMode_mount (S n) browser w in
  let v :=
    match store w !! darkModeKey with
    | Some s => JS.Str s
    | None => JS.Bool (prefersDark w)
    end in
  value (fst rc) = v ∧
  darkMode (inner (snd rc)) = v ∧
  triggerOnce (inner (snd rc)) = true ∧
  isDark (mediaStore w') = v ∧
  toggleFn (fst rc) = HookToggle darkModeKey ∧
  cellToggle (mediaStore w') = toggleFn (fst rc) ∧
  exclusive browserOptions v (classList w' 0) ∧
  store w' = store w ∧
  prefersDark w' = prefersDark w.
Proof.
  unfold useDarkMode_mount, bind. rewrite useDarkMode_first_render_browser.
  cbv zeta. cbn [fst snd].
  match goal with
  | |- context [useDarkMode_commit (S n) ?c browser ?w1] =>
      pose proof (useDarkMode_commit_settled n c w1) as Hc;
      destruct (useDarkMode_commit (S n) c browser w1) as [c' w']
  end.
  cbn [inner lastInitial lastValue holding darkMode triggerOnce] in Hc.
  destruct Hc as (Hm & Hl & Hv & Hd & Ht & Hs & Hp & Hcl).
  { destruct (store w !! darkModeKey); simpl; [discriminate |]. reflexivity. }
  { unfold determined. simpl. destruct (store w !! darkModeKey); reflexivity. }
  cbv beta iota delta [ret]. cbn [fst snd value toggleFn].
  assert ((if JS.is_undefined (JS.of_lookup (store w !! darkModeKey))
           then JS.Bool (prefersDark w)
           else JS.of_lookup (store w !! darkModeKey)) =
          match store w !! darkModeKey with
          | Some s => JS.Str s
          | None => JS.Bool (prefersDark w)
          end) as Hval by (destruct (store w !! darkModeKey); reflexivity).
  rewrite Hval in *.
  repeat split; try assumption; try congruence.
  - rewrite Hcl. apply exclusive_swap. discriminate.
  - rewrite Hs. destruct (store w !! darkModeKey); reflexivity.
  - rewrite Hp. destruct (store w !! darkModeKey); reflexivity.
Qed.

(** X10.  Mounting [useDarkMode] in a browser.  The value reported, the mode
    the hook holds and [isDark] in the cell are all the string stored under
    ["darkMode"] when there is one, and the boolean OS preference when there
    is none.  The root element ends with the class ["dark"] and without
    ["light"] when that value is truthy, and the other way round when it is
    falsy.  The cell's toggle is the toggle returned, and the store is left
    as it was. *)
Theorem useDarkMode_mount_browser n w :
  let '(rc, w') := useDarkMode_mount (S n) browser w in
  let v :=
    match store w !! darkModeKey with
    | Some s => JS.Str s
    | None => JS.Bool (prefersDark w)
    end in
  value (fst rc) = v ∧
  darkMode (inner (snd rc)) = v ∧
  triggerOnce (inner (snd rc)) = true ∧
  isDark (mediaStore w') = v ∧
  toggleFn (fst rc) = HookToggle darkModeKey ∧
  cellToggle (mediaStore w') = toggleFn (fst rc) ∧
  exclusive browserOptions v (classList w' 0) ∧
  store w' = store w ∧
  prefersDark w' = prefersDark w.
Proof. apply useDarkMode_mount_facts. Qed.

(** A later render of [useDarkMode] in a browser, with a string in the
    store: the state is kept and the string becomes the initial value the
    closures of this render see. *)
Lemma useDarkMode_rerender_browser c w s :
  triggerOnce (inner c) = true →
  store w !! darkModeKey = Some s →
  useDarkMode (Some c) browser w =
    ({| value := darkMode (inner c); toggleFn := HookToggle darkModeKey |},
     {| inner := inner c; onceRef := true;
        lastInitial := JS.Str s; lastValue := darkMode (inner c) |},
     if onceRef c then record (ReadStore darkModeKey) w
     else with_mediaStore
            {| isDark := isDark (mediaStore w); cellToggle := HookToggle darkModeKey |}
            (record (ReadStore darkModeKey) w)).
Proof.
  intros Hl Hs. unfold useDarkMode, bind, getStorage. simpl. rewrite Hs. simpl.
  unfold useDarkModeInternal, bind, isServerSide, ret, setMediaStore.
  rewrite Hl. simpl. destruct (onceRef c); reflexivity.
Qed.

Lemma useDarkMode_toggle_eager n c w :
  triggerOnce (inner c) = true →
  let '(c', w') :=
    useDarkMode_toggle Eager (S n) (HookToggle darkModeKey) c browser w in
  let newValue := JS.not (darkMode (inner c)) in
  darkMode (inner c') = JS.Bool newValue ∧
  triggerOnce (inner c') = true ∧
  lastValue c' = JS.Bool newValue ∧
  isDark (mediaStore w') = JS.Bool newValue ∧
  store w' = <[darkModeKey := JS.String_of_bool newValue]> (store w) ∧
  prefersDark w' = prefersDark w ∧
  exclusive browserOptions (JS.Bool newValue) (classList w' 0).
Proof.
  intros Hl. unfold useDarkMode_toggle, bind. simpl call.
  rewrite toggle_browser. simpl JS.truthy_string. cbv iota.
  cbn [darkMode setDarkMode].
  destruct (decide (JS.Bool (JS.not (darkMode (inner c))) = darkMode (inner c)))
    as [Heq | _]; [by apply not_changes in Heq |].
  rewrite (useDarkMode_rerender_browser _ _
             (JS.String_of_bool (JS.not (darkMode (inner c)))));
    [| exact Hl | apply lookup_insert_eq].
  cbn [snd inner with_inner darkMode setDarkMode onceRef].
  destruct (onceRef c);
    match goal with
    | |- context [useDarkMode_commit (S n) ?c2 browser ?w2] =>
        pose proof (useDarkMode_commit_settled n c2 w2) as Hc;
        destruct (useDarkMode_commit (S n) c2 browser w2) as [c' w']
    end;
    cbn [inner lastInitial lastValue darkMode triggerOnce setDarkMode] in Hc;
    (destruct Hc as (Hm & Hl' & Hv & Hd & _ & Hs & Hp & Hcl);
       [discriminate | reflexivity |]);
    rewrite Hm, Hl', Hv, Hd, Hs, Hp, Hcl;
    (repeat split; try exact Hl);
    apply exclusive_swap; discriminate.
Qed.

(** The render in which [useState] applies a queued toggle: the store is
    read first and written afterwards. *)
Lemma useDarkMode_applying_browser c w :
  triggerOnce (inner c) = true →
  useDarkMode_applying (HookToggle darkModeKey) c browser w =
    ({| value := JS.Bool (JS.not (darkMode (inner c)));
        toggleFn := HookToggle darkModeKey |},
     {| inner := setDarkMode (JS.Bool (JS.not (darkMode (inner c)))) (inner c);
        onceRef := true;
        lastInitial := JS.of_lookup (store w !! darkModeKey);
        lastValue := JS.Bool (JS.not (darkMode (inner c))) |},
     (if onceRef c then λ w0, w0
      else with_mediaStore
             {| isDark := isDark (mediaStore w); cellToggle := HookToggle darkModeKey |})
       (record (WriteStore darkModeKey
                  (JS.String_of_bool (JS.not (darkMode (inner c)))))
          (with_store
             (<[darkModeKey := JS.String_of_bool (JS.not (darkMode (inner c)))]>
                (store w))
             (record (ReadStore darkModeKey) w)))).
Proof.
  intros Hl. unfold useDarkMode_applying, bind.
  unfold getStorage at 1. cbn [server browser].
  rewrite publicOptions_browser. cbn [call].
  change (storageKey_of browserOptions) with darkModeKey.
  rewrite toggle_browser. cbn [JS.truthy_string darkModeKey].
  rewrite later_render by exact Hl.
  unfold ret, setMediaStore. destruct (onceRef c); reflexivity.
Qed.

Lemma useDarkMode_commit_S n c :
  useDarkMode_commit (S n) c =
    (c' <- useDarkMode_effects c ;;
     if decide (darkMode (inner c') = darkMode (inner c)) then ret c'
     else rc <- useDarkMode (Some c') ;; useDarkMode_commit n (snd rc)).
Proof. reflexivity. Qed.

(** A consumer rendered without an initial value while the store already
    holds a string, and whose mode is not the OS preference: the detecting
    effect sets the OS preference, and the render that follows, which does
    see the stored string, keeps it. *)
Lemma useDarkMode_commit_reverts m c w s :
  JS.is_undefined (lastInitial c) = true →
  triggerOnce (inner c) = true →
  determined (inner c) →
  darkMode (inner c) ≠ JS.Bool (prefersDark w) →
  store w !! darkModeKey = Some s →
  let '(c', w') := useDarkMode_commit (S (S m)) c browser w in
  darkMode (inner c') = JS.Bool (prefersDark w) ∧
  triggerOnce (inner c') = true ∧
  lastValue c' = JS.Bool (prefersDark w) ∧
  isDark (mediaStore w') = JS.Bool (prefersDark w) ∧
  store w' = store w ∧
  prefersDark w' = prefersDark w ∧
  exclusive browserOptions (JS.Bool (prefersDark w)) (classList w' 0).
Proof.
  intros Hu Hl Hdet Hne Hs.
  rewrite useDarkMode_commit_S. unfold bind at 1.
  rewrite useDarkMode_effects_browser.
  destruct (effects_mode (lastInitial c) browserOptions (inner c) browser w) as [Hm Hp].
  destruct (effects_keeps_host (lastInitial c) browserOptions (inner c) browser w)
    as [Hst Hc].
  pose proof (effects_latch (lastInitial c) browserOptions (inner c) browser w) as Hl1.
  destruct (effects (lastInitial c) browserOptions (inner c) browser w) as [h1 w1].
  cbn [fst snd inner with_inner] in *. rewrite Hu in Hm. simpl in Hm.
  destruct (decide (darkMode h1 = darkMode (inner c))) as [Heq | _];
    [rewrite Hm in Heq; by symmetry in Heq |].
  unfold bind.
  rewrite (useDarkMode_rerender_browser _ _ s);
    [| cbn [inner with_inner]; by rewrite Hl1 | cbn [store with_mediaStore]; by rewrite Hst].
  cbn [snd inner with_inner onceRef].
  destruct (onceRef c);
    match goal with
    | |- context [useDarkMode_commit (S m) ?c2 browser ?w2] =>
        pose proof (useDarkMode_commit_settled m c2 w2) as Hk;
        destruct (useDarkMode_commit (S m) c2 browser w2) as [c' w']
    end;
    cbn [inner lastInitial lastValue store prefersDark record with_mediaStore] in Hk;
    (destruct Hk as (Hm' & Hl' & Hv' & Hd' & _ & Hs' & Hp' & Hcl');
       [discriminate | unfold determined; by rewrite Hm |]);
    rewrite Hm', Hl', Hv', Hd', Hs', Hp', Hcl', Hm, Hl1, Hst, Hp;
    (repeat split; try exact Hl);
    apply exclusive_swap; discriminate.
Qed.

Lemma useDarkMode_toggle_queued m c w :
  triggerOnce (inner c) = true →
  let '(c', w') :=
    useDarkMode_toggle Queued (S (S m)) (HookToggle darkModeKey) c browser w in
  let newValue := JS.not (darkMode (inner c)) in
  let final :=
    match store w !! darkModeKey with
    | None => JS.Bool (prefersDark w)
    | Some _ => JS.Bool newValue
    end in
  darkMode (inner c') = final ∧
  triggerOnce (inner c') = true ∧
  lastValue c' = final ∧
  isDark (mediaStore w') = final ∧
  store w' = <[darkModeKey := JS.String_of_bool newValue]> (store w) ∧
  prefersDark w' = prefersDark w ∧
  exclusive browserOptions final (classList w' 0).
Proof.
  intros Hl. unfold useDarkMode_toggle, bind.
  rewrite (useDarkMode_applying_browser c w Hl).
  cbn [snd inner darkMode setDarkMode].
  destruct (decide (JS.Bool (JS.not (darkMode (inner c))) = darkMode (inner c)))
    as [Heq | _]; [by apply not_changes in Heq |].
  set (nv := JS.not (darkMode (inner c))).
  destruct (store w !! darkModeKey) as [s |] eqn:Hs; cbn [JS.of_lookup].
  - (* a string was stored: the render saw it, and the toggle stays *)
    destruct (onceRef c);
      match goal with
      | |- context [useDarkMode_commit (S (S m)) ?c2 browser ?w2] =>
          pose proof (useDarkMode_commit_settled (S m) c2 w2) as Hk;
          destruct (useDarkMode_commit (S (S m)) c2 browser w2) as [c' w']
      end;
      cbn [inner lastInitial lastValue darkMode triggerOnce setDarkMode] in Hk;
      (destruct Hk as (Hm & Hl' & Hv & Hd & _ & Hst & Hp & Hcl);
         [discriminate | reflexivity |]);
      rewrite Hm, Hl', Hv, Hd, Hst, Hp, Hcl;
      (repeat split; try exact Hl);
      apply exclusive_swap; discriminate.
  - (* nothing was stored: the detecting effect puts the OS preference back *)
    destruct (decide (JS.Bool nv = JS.Bool (prefersDark w))) as [Hsame | Hdiff].
    + destruct (onceRef c);
        match goal with
        | |- context [useDarkMode_commit (S (S m)) ?c2 browser ?w2] =>
            pose proof (useDarkMode_commit_settled (S m) c2 w2) as Hk;
            destruct (useDarkMode_commit (S (S m)) c2 browser w2) as [c' w']
        end;
        cbn [inner lastInitial lastValue darkMode triggerOnce setDarkMode
             prefersDark record with_store with_mediaStore] in Hk;
        (destruct Hk as (Hm & Hl' & Hv & Hd & _ & Hst & Hp & Hcl);
           [intros _; exact Hsame | reflexivity |]);
        rewrite Hm, Hl', Hv, Hd, Hst, Hp, Hcl, <- Hsame;
        (repeat split; try exact Hl);
        apply exclusive_swap; discriminate.
    + destruct (onceRef c);
        match goal with
        | |- context [useDarkMode_commit (S (S m)) ?c2 browser ?w2] =>
            pose proof (useDarkMode_commit_reverts m c2 w2
                          (JS.String_of_bool nv)) as Hk;
            destruct (useDarkMode_commit (S (S m)) c2 browser w2) as [c' w']
        end;
        cbn [inner lastInitial lastValue darkMode triggerOnce setDarkMode
             prefersDark store record with_store with_mediaStore] in Hk;
        (destruct Hk as (Hm & Hl' & Hv & Hd & Hst & Hp & Hex);
           [reflexivity | exact Hl | reflexivity | exact Hdiff
           | apply lookup_insert_eq |]);
        rewrite Hm, Hl', Hv, Hd, Hst, Hp;
        by repeat split.
Qed.

(** Whether a toggle is undone by the detecting effect: it is when React
    applied the updater inside the render and nothing was stored before. *)
Lemma useDarkMode_toggle_facts t m c w :
  triggerOnce (inner c) = true →
  let '(c', w') :=
    useDarkMode_toggle t (S (S m)) (HookToggle darkModeKey) c browser w in
  let newValue := JS.not (darkMode (inner c)) in
  let final :=
    match t, store w !! darkModeKey with
    | Queued, None => JS.Bool (prefersDark w)
    | _, _ => JS.Bool newValue
    end in
  darkMode (inner c') = final ∧
  triggerOnce (inner c') = true ∧
  lastValue c' = final ∧
  isDark (mediaStore w') = final ∧
  store w' = <[darkModeKey := JS.String_of_bool newValue]> (store w) ∧
  prefersDark w' = prefersDark w ∧
  exclusive browserOptions final (classList w' 0).
Proof.
  intros Hl. destruct t.
  - pose proof (useDarkMode_toggle_eager (S m) c w Hl) as H.
    destruct (useDarkMode_toggle Eager (S (S m)) (HookToggle darkModeKey) c browser w).
    exact H.
  - pose proof (useDarkMode_toggle_queued m c w Hl) as H.
    destruct (useDarkMode_toggle Queued (S (S m)) (HookToggle darkModeKey) c browser w).
    cbv zeta in *. destruct (store w !! darkModeKey); exact H.
Qed.

(** X11.  A component that only knows the cell toggles the page.  After
    [useDarkMode] has mounted in a browser, [useDarkModeSwitch] hands out the
    very toggle the hook returned.  Calling it stores, under ["darkMode"],
    the string of the negation of the value reported at mount.  When React
    runs the updater at once, or when a string was already stored,
    [useIsDark], the hook's mode and the value it reports end as that
    negation.  When React runs the updater inside the next render and
    nothing was stored, that render has read the store too early, the
    detecting effect puts the OS preference back, and all three end as the
    value reported at mount.  In each case the root element ends with the
    class of the mode the hook ends with, and with it only. *)
Theorem switch_toggles_the_page t n m w :
  let '(rc, w1) := useDarkMode_mount (S n) browser w in
  let '(f, w2) := useDarkModeSwitch browser w1 in
  let '(c', w3) := useDarkMode_toggle t (S (S m)) f (snd rc) browser w2 in
  let '(v, w4) := useIsDark browser w3 in
  let newValue := JS.not (value (fst rc)) in
  let final :=
    match t, store w !! darkModeKey with
    | Queued, None => value (fst rc)
    | _, _ => JS.Bool newValue
    end in
  f = toggleFn (fst rc) ∧
  v = final ∧
  darkMode (inner c') = final ∧
  lastValue c' = final ∧
  store w4 !! darkModeKey = Some (JS.String_of_bool newValue) ∧
  exclusive browserOptions final (classList w4 0).
Proof.
  pose proof (useDarkMode_mount_facts n w) as Hmount.
  destruct (useDarkMode_mount (S n) browser w) as [[r c] w1].
  cbv zeta in Hmount. cbn [fst snd] in *.
  destruct Hmount as (Hv & Hm & Hl & _ & Ht & Hcell & _ & Hs1 & Hp1).
  unfold useDarkModeSwitch, useIsDark. rewrite Hcell, Ht.
  pose proof (useDarkMode_toggle_facts t m c w1 Hl) as Htog.
  destruct (useDarkMode_toggle t (S (S m)) (HookToggle darkModeKey) c browser w1)
    as [c' w3].
  cbv zeta in Htog. rewrite Hs1, Hp1, Hm, <- Hv in Htog.
  destruct Htog as (Hm' & _ & Hv' & Hd' & Hs' & _ & Hcl').
  assert (match t, store w !! darkModeKey with
          | Queued, None => JS.Bool (prefersDark w)
          | _, _ => JS.Bool (JS.not (value r))
          end =
          match t, store w !! darkModeKey with
          | Queued, None => value r
          | _, _ => JS.Bool (JS.not (value r))
          end) as Hfinal.
  { rewrite Hv. destruct t, (store w !! darkModeKey); reflexivity. }
  rewrite Hfinal in *.
  repeat split; try assumption.
  rewrite Hs'. apply lookup_insert_eq.
Qed.

Lemma useDarkMode_unload_browser c w :
  useDarkMode_unload c browser w =
    (with_inner (inner c) c,
     if JS.strict_eq_bool (prefersDark w) (darkMode (inner c))
     then record (DeleteStore darkModeKey)
            (with_store (delete darkModeKey (store w)) (record QueryMedia w))
     else record QueryMedia w).
Proof.
  unfold useDarkMode_unload, bind. rewrite unloadHandler_browser. reflexivity.
Qed.

(** X12.  A whole visit in a browser: [useDarkMode] mounts, the user
    toggles, the page unloads, and the site is loaded again over the store
    that was left.  When the toggle was undone (React ran the updater inside
    the render and nothing was stored before), the mode is the OS preference
    again, unload deletes the override and the next load follows the OS.
    Otherwise unload deletes the override exactly when the toggled value
    equals the OS preference, and else the next load finds the string of the
    toggled value, which is truthy whatever it says: the page then comes
    back dark exactly when the toggled value was dark or the OS prefers
    dark, so a user who turned a dark-preferring system to light gets dark
    again. *)
Theorem toggle_unload_reload t n m k w :
  let '(rc, w1) := useDarkMode_mount (S n) browser w in
  let '(c2, w2) :=
    useDarkMode_toggle t (S (S m)) (toggleFn (fst rc)) (snd rc) browser w1 in
  let '(_, w3) := useDarkMode_unload c2 browser w2 in
  let '(rc', w4) := useDarkMode_mount (S k) browser (reload w3) in
  let newValue := JS.not (value (fst rc)) in
  let undone :=
    match t, store w !! darkModeKey with
    | Queued, None => true
    | _, _ => false
    end in
  store w3 !! darkModeKey =
    (if undone || eqb (prefersDark w) newValue then None
     else Some (JS.String_of_bool newValue)) ∧
  value (fst rc') =
    (if undone then JS.Bool (prefersDark w)
     else if eqb (prefersDark w) newValue then JS.Bool newValue
     else JS.Str (JS.String_of_bool newValue)) ∧
  JS.truthy (value (fst rc')) =
    (if undone then prefersDark w else newValue || prefersDark w) ∧
  exclusive browserOptions (value (fst rc')) (classList w4 0).
Proof.
  pose proof (useDarkMode_mount_facts n w) as Hmount.
  destruct (useDarkMode_mount (S n) browser w) as [[r c] w1].
  cbv zeta in Hmount. cbn [fst snd] in *.
  destruct Hmount as (Hv & Hm & Hl & _ & Ht & _ & _ & Hs1 & Hp1).
  rewrite Ht.
  pose proof (useDarkMode_toggle_facts t m c w1 Hl) as Htog.
  destruct (useDarkMode_toggle t (S (S m)) (HookToggle darkModeKey) c browser w1)
    as [c2 w2].
  cbv zeta in Htog. rewrite Hs1, Hp1, Hm, <- Hv in Htog.
  destruct Htog as (Hm2 & _ & _ & _ & Hs2 & Hp2 & _).
  rewrite useDarkMode_unload_browser, Hm2, Hp2.
  match goal with
  | |- context [useDarkMode_mount (S k) browser (reload ?w3)] =>
      pose proof (useDarkMode_mount_facts k (reload w3)) as Hre;
      destruct (useDarkMode_mount (S k) browser (reload w3)) as [[r' c'] w4]
  end.
  cbv zeta in Hre. cbn [fst snd] in *.
  destruct Hre as (Hv' & _ & _ & _ & _ & _ & Hex' & _).
  rewrite Hv' in *. clear Hv'.
  assert (∀ b, JS.strict_eq_bool b (JS.Bool b) = true) as Hself
    by (intros []; reflexivity).
  assert (JS.strict_eq_bool (prefersDark w) (JS.Bool (JS.not (value r))) =
          eqb (prefersDark w) (JS.not (value r))) as Hstrict by reflexivity.
  destruct t, (store w !! darkModeKey) as [s |] eqn:Hs; cbn [orb] in *.
  4: { rewrite Hself in *. simpl in *. rewrite lookup_delete_eq, Hp2 in *.
       repeat split; try assumption. }
  all: rewrite Hstrict in *;
    destruct (eqb (prefersDark w) (JS.not (value r))) eqn:Heq;
    simpl in *; rewrite Hs2 in *;
    [ rewrite lookup_delete_eq in *; rewrite Hp2 in *;
      apply eqb_prop in Heq; rewrite <- Heq in *;
      repeat split; try assumption; by destruct (prefersDark w)
    | rewrite lookup_insert_eq in *;
      repeat split; try assumption;
      destruct (JS.not (value r)), (prefersDark w); simpl in *; congruence ].
Qed.

(** X13.  An override that [useDarkMode] loaded from the store is never
    cleaned up on unload: the mode is then the stored string, which is not
    strictly equal to the boolean of the media query, so the store after
    mount and unload in a browser is the store before, even when the stored
    string names the very preference of the OS. *)
Theorem stored_override_survives_unload n w s :
  store w !! darkModeKey = Some s →
  let '(rc, w1) := useDarkMode_mount (S n) browser w in
  let '(_, w2) := useDarkMode_unload (snd rc) browser w1 in
  store w2 = store w.
Proof.
  intros Hs.
  pose proof (useDarkMode_mount_facts n w) as Hmount.
  destruct (useDarkMode_mount (S n) browser w) as [[r c] w1].
  cbv zeta in Hmount. cbn [fst snd] in *. rewrite Hs in Hmount.
  destruct Hmount as (_ & Hm & _ & _ & _ & _ & _ & Hst & _).
  rewrite useDarkMode_unload_browser, Hm. simpl. exact Hst.
Qed.

Lemma stored_override_survives_unload_witness :
  store (fresh {[ darkModeKey := "true" ]} true) !! darkModeKey = Some "true" ∧
  (let '(rc, w1) :=
     useDarkMode_mount 1 browser (fresh {[ darkModeKey := "true" ]} true) in
   let '(_, w2) := useDarkMode_unload (snd rc) browser w1 in
   store w2 = store (fresh {[ darkModeKey := "true" ]} true)).
Proof.
  split; [reflexivity |].
  apply (stored_override_survives_unload 0 (fresh {[ darkModeKey := "true" ]} true)
           "true").
  reflexivity.
Defined.

(** ** The public hook on a server *)

Lemma useDarkMode_commit_ssr n c w :
  useDarkMode_commit n c ssr w = (c, w).
Proof.
  destruct n as [| n]; [reflexivity |].
  simpl. unfold bind, useDarkMode_effects, bind, isServerSide, ret. simpl.
  destruct (decide (darkMode (inner c) = darkMode (inner c))); [reflexivity | congruence].
Qed.

(** X14.  Rendering [useDarkMode] on a server reports [false] with a toggle
    that does nothing.  Its traces are that no-op toggle published in the
    cell and two calls of [getStorage] for ["darkMode"] in the journal, the
    one of line 174 and the one of [detector], neither of which finds a
    store to read.  The store, the class lists and [isDark] are as before,
    so [useIsDark] still answers what it answered, and calling what
    [useDarkModeSwitch] hands out changes nothing. *)
Theorem useDarkMode_on_server n w :
  let '(rc, w') := useDarkMode_mount n ssr w in
  let '(v, _) := useIsDark ssr w' in
  let '(f, _) := useDarkModeSwitch ssr w' in
  value (fst rc) = JS.Bool false ∧
  toggleFn (fst rc) = NoopToggle ∧
  w' = with_mediaStore
         {| isDark := isDark (mediaStore w); cellToggle := NoopToggle |}
         (record (ReadStore darkModeKey) (record (ReadStore darkModeKey) w)) ∧
  store w' = store w ∧
  classes w' = classes w ∧
  v = isDark (mediaStore w) ∧
  f = NoopToggle ∧
  (∀ h0 e0 w0, call f h0 e0 w0 = (h0, w0)).
Proof.
  unfold useDarkMode_mount, bind.
  assert (useDarkMode None ssr w =
          ({| value := JS.Bool false; toggleFn := NoopToggle |},
           {| inner := set_triggerOnce (mount JS.Undefined); onceRef := true;
              lastInitial := JS.Undefined; lastValue := JS.Bool false |},
           with_mediaStore
             {| isDark := isDark (mediaStore w); cellToggle := NoopToggle |}
             (record (ReadStore darkModeKey) (record (ReadStore darkModeKey) w))))
    as Hr.
  { reflexivity. }
  rewrite Hr. cbn [fst snd]. rewrite useDarkMode_commit_ssr.
  simpl. repeat split.
Qed.

(** ** The footprint of the hook on the host *)

Lemma String_of_bool_cases b :
  JS.String_of_bool b = "true" ∨ JS.String_of_bool b = "false".
Proof. destruct b; [left | right]; reflexivity. Qed.

Ltac journal_grows :=
  match goal with
  | |- ∃ new, ?a :: ?b :: journal ?w = _ ∧ _ => exists [a; b]
  | |- ∃ new, ?a :: journal ?w = _ ∧ _ => exists [a]
  | |- ∃ new, journal ?w = _ ∧ _ => exists []
  end;
  split; [reflexivity |];
  repeat first [apply Forall_nil_2 | apply Forall_cons_2];
  simpl; auto using String_of_bool_cases.

Lemma step_footprint o ev h e w :
  own_toggle o ev →
  ∃ new, journal (snd (step o ev h e w)) = (new ++ journal w)%list ∧
         Forall (within_footprint o) new.
Proof.
  intros Hown. destruct e as [[|]];
    destruct ev as [f | matches | s | | initialState | initialState |]; simpl.
  (* on a server *)
  - destruct f as [| k]; simpl in *; [journal_grows |]. subst k.
    unfold toggle, bind, isServerSide, setStorage, ret. simpl.
    rewrite andb_false_r. journal_grows.
  - unfold bind, setPrefersDark, handler, bind, getStorage, delStorage, ret. simpl.
    destruct matches; simpl; journal_grows.
  - unfold bind, setStore, storageHandler, bind, getStorage, matchMedia, ret. simpl.
    journal_grows.
  - unfold unloadHandler, getDarkMode, bind, matchMedia, delStorage, ret. simpl.
    destruct (JS.strict_eq_bool (prefersDark w) (darkMode h)); simpl; journal_grows.
  - rewrite detector_cases. simpl.
    destruct (JS.truthy_string (storageKey_of o)); simpl; journal_grows.
  - unfold bind, useDarkModeInternal, bind, isServerSide, ret. simpl.
    destruct (triggerOnce h); simpl; [journal_grows |].
    rewrite detector_cases. simpl.
    destruct (JS.truthy_string (storageKey_of o)); simpl; journal_grows.
  - unfold bind, reflector, bind, isServerSide, ret. simpl. journal_grows.
  (* in a browser *)
  - destruct f as [| k]; simpl in *; [journal_grows |]. subst k.
    rewrite toggle_browser.
    destruct (JS.truthy_string (storageKey_of o)); simpl; journal_grows.
  - unfold bind, setPrefersDark. rewrite handler_browser. simpl.
    destruct (eqb _ matches); simpl; journal_grows.
  - unfold bind, setStore. rewrite storageHandler_browser. simpl.
    destruct (s !! storageKey_of o) as [v |]; simpl; journal_grows.
  - rewrite unloadHandler_browser.
    destruct (JS.strict_eq_bool (prefersDark w) (darkMode h)); simpl; journal_grows.
  - rewrite detector_cases. simpl.
    destruct (JS.is_undefined initialState); simpl; journal_grows.
  - unfold bind, useDarkModeInternal, bind, isServerSide, ret. simpl.
    destruct (triggerOnce h); simpl; [journal_grows |].
    rewrite detector_cases. simpl.
    destruct (JS.is_undefined initialState); simpl; journal_grows.
  - unfold bind, reflector, andThen, bind, isServerSide, ret, classList_remove,
      classList_add.
    simpl.
    destruct (JS.is_undefined (darkMode h)); simpl; [journal_grows |].
    unfold target.
    destruct (JS.truthy (darkMode h)),
      (default documentElement (element o)) as [id |] eqn:Hel;
      simpl; try journal_grows;
      destruct (well_formed (classNameLight_of o)),
        (well_formed (classNameDark_of o)); simpl; journal_grows.
Qed.

(** X15.  Whatever happens to a mounted [useDarkModeInternal] (calls of its
    toggle, OS changes, storage events, unload, re-detection, renders,
    reflections, in any order and any context), the host calls it adds to
    the journal stay within its footprint: it reads the store only under its
    configured key, writes there only ["true"] or ["false"], deletes only
    under that key or under ["darkMode"], and adds or removes only its two
    class names on its target element. *)
Theorem run_footprint o evs : ∀ h e w,
  Forall (own_toggle o) evs →
  ∃ new, journal (snd (run o evs h e w)) = (new ++ journal w)%list ∧
         Forall (within_footprint o) new.
Proof.
  induction evs as [| ev evs IH]; intros h e w Hown.
  - exists []. split; [reflexivity | constructor].
  - apply Forall_cons in Hown as [Hev Hevs].
    simpl. unfold bind.
    destruct (step_footprint o ev h e w Hev) as (new1 & Hj1 & Hf1).
    destruct (step o ev h e w) as [h1 w1]; simpl in Hj1.
    destruct (IH h1 e w1 Hevs) as (new2 & Hj2 & Hf2).
    exists (new2 ++ new1)%list. split.
    + rewrite Hj2, Hj1. apply app_assoc.
    + apply Forall_app. by split.
Qed.

Lemma run_footprint_witness :
  Forall (own_toggle themed)
    [CallToggle (HookToggle "theme"); MediaChange true; Unload; Reflect] ∧
  ∃ new,
    journal (snd (run themed
                    [CallToggle (HookToggle "theme"); MediaChange true; Unload; Reflect]
                    (holding (JS.Bool false)) browser (fresh ∅ false))) =
      (new ++ journal (fresh ∅ false))%list ∧
    Forall (within_footprint themed) new.
Proof.
  assert (Forall (own_toggle themed)
            [CallToggle (HookToggle "theme"); MediaChange true; Unload; Reflect])
    as Hown by (repeat constructor).
  split; [exact Hown |].
  exact (run_footprint themed _ (holding (JS.Bool false)) browser (fresh ∅ false) Hown).
Defined.

(** ** A storage event at the public hook *)

Lemma useDarkMode_rerender_any c w :
  triggerOnce (inner c) = true →
  let '(rc, w') := useDarkMode (Some c) browser w in
  inner (snd rc) = inner c ∧
  lastInitial (snd rc) = JS.of_lookup (store w !! darkModeKey) ∧
  store w' = store w ∧
  prefersDark w' = prefersDark w.
Proof.
  intros Hl. unfold useDarkMode, bind, getStorage. simpl.
  unfold useDarkModeInternal, bind, isServerSide, ret, setMediaStore.
  rewrite Hl. simpl. destruct (onceRef c); repeat split.
Qed.

Lemma rerender_commit_keeps n c h w :
  triggerOnce h = true →
  determined h →
  (JS.is_undefined (JS.of_lookup (store w !! darkModeKey)) = true →
   darkMode h = JS.Bool (prefersDark w)) →
  let '(c', w') :=
    (rc <- useDarkMode (Some (with_inner h c)) ;;
     useDarkMode_commit (S n) (snd rc)) browser w in
  darkMode (inner c') = darkMode h ∧ store w' = store w.
Proof.
  intros Hl Hdet Hund. unfold bind.
  pose proof (useDarkMode_rerender_any (with_inner h c) w Hl) as Hre.
  destruct (useDarkMode (Some (with_inner h c)) browser w) as [[r2 c2] w2].
  cbn [fst snd inner with_inner] in *. destruct Hre as (Hi & Hli & Hs2 & Hp2).
  pose proof (useDarkMode_commit_settled n c2 w2) as Hc.
  destruct (useDarkMode_commit (S n) c2 browser w2) as [c' w'].
  rewrite Hi, Hli, Hp2 in Hc.
  destruct Hc as (Hm & _ & _ & _ & _ & Hs & _); [exact Hund | exact Hdet |].
  rewrite Hm, Hs, Hs2. by split.
Qed.

(** X16.  A storage event at a mounted [useDarkMode] in a browser, once
    rendered and committed: the mode is [true] for a stored ["true"],
    [false] for a stored ["false"], the OS preference when nothing is
    stored, and unchanged for any other string.  The detecting effect does
    not undo it, and the store is left as the other tab wrote it. *)
Theorem storage_event_at_public_hook n c w :
  triggerOnce (inner c) = true →
  let '(c', w') := useDarkMode_storage (S n) c browser w in
  darkMode (inner c') =
    match store w !! darkModeKey with
    | None => JS.Bool (prefersDark w)
    | Some s =>
        if bool_decide (s = "true") then JS.Bool true
        else if bool_decide (s = "false") then JS.Bool false
        else darkMode (inner c)
    end ∧
  store w' = store w.
Proof.
  intros Hl. unfold useDarkMode_storage, bind. rewrite publicOptions_browser.
  fold browserOptions. rewrite storageHandler_browser.
  change (storageKey_of browserOptions) with darkModeKey.
  assert (∀ v w1,
            JS.is_undefined v = false →
            (JS.is_undefined (JS.of_lookup (store w1 !! darkModeKey)) = true →
             v = JS.Bool (prefersDark w1)) →
            let '(c', w') :=
              (if decide (darkMode (setDarkMode v (inner c)) = darkMode (inner c))
               then ret c
               else rc <- useDarkMode (Some (with_inner (setDarkMode v (inner c)) c)) ;;
                    useDarkMode_commit (S n) (snd rc)) browser w1 in
            darkMode (inner c') = v ∧ store w' = store w1) as settle.
  { intros v w1 Hv Hund. cbn [darkMode setDarkMode].
    destruct (decide (v = darkMode (inner c))) as [Hsame | Hchg].
    - cbv beta iota delta [ret]. split; [by symmetry | reflexivity].
    - apply (rerender_commit_keeps n c (setDarkMode v (inner c)) w1);
        [exact Hl | exact Hv | exact Hund]. }
  destruct (store w !! darkModeKey) as [s |] eqn:Hs.
  - destruct (bool_decide (s = "true")); [| destruct (bool_decide (s = "false"))].
    + refine (settle (JS.Bool true) (record (ReadStore darkModeKey) w) eq_refl _).
      cbn [store record]. rewrite Hs. discriminate.
    + refine (settle (JS.Bool false) (record (ReadStore darkModeKey) w) eq_refl _).
      cbn [store record]. rewrite Hs. discriminate.
    + destruct (decide (darkMode (inner c) = darkMode (inner c)));
        [by split | congruence].
  - refine (settle (JS.Bool (prefersDark w))
              (record QueryMedia (record (ReadStore darkModeKey) w)) eq_refl _).
    reflexivity.
Qed.

Lemma storage_event_at_public_hook_witness :
  triggerOnce (inner (mounted (JS.Bool false))) = true ∧
  (let '(c', w') :=
     useDarkMode_storage 1 (mounted (JS.Bool false))
       browser (fresh {[ darkModeKey := "true" ]} false) in
   darkMode (inner c') =
     match store (fresh {[ darkModeKey := "true" ]} false) !! darkModeKey with
     | None => JS.Bool (prefersDark (fresh {[ darkModeKey := "true" ]} false))
     | Some s =>
         if bool_decide (s = "true") then JS.Bool true
         else if bool_decide (s = "false") then JS.Bool false
         else darkMode (inner (mounted (JS.Bool false)))
     end ∧
   store w' = store (fresh {[ darkModeKey := "true" ]} false)).
Proof.
  split; [reflexivity |].
  apply (storage_event_at_public_hook 0 (mounted (JS.Bool false))
           (fresh {[ darkModeKey := "true" ]} false)).
  reflexivity.
Defined.
